(** * Book management service: the request handlers over an explicit store

    A shallow embedding of [app/models.py], [app/schemas.py], [app/crud.py],
    [app/auth.py] and the handlers of [app/main.py].  The database session
    is an explicit [Store] threaded through a state-and-exception monad; a
    Python exception is a [Raise] result, and [try ... except Exception] is
    [try_except].  The language model, the password hashing library and
    the database engine's handling of the declared foreign key are what the
    repository calls or configures but does not define; they are Section
    variables. *)

From Stdlib Require Import ZArith List String Ascii Bool Lia PrimFloat.
Import ListNotations.

Local Open Scope string_scope.
Local Open Scope list_scope.
Local Open Scope Z_scope.

(** ** Exceptions and results *)

(** The exceptions the handlers can meet.  All of them are subclasses of
    Python's [Exception]. *)
Inductive exn : Type :=
| HTTPException (status_code : Z) (detail : string)
| RequestValidationError (missing : list string)
| MultipleResultsFound
| IntegrityError
| ModelError (message : string)
| ValueError (message : string).

Inductive result (A : Type) : Type :=
| Ok (a : A)
| Raise (e : exn).
Arguments Ok {A} a.
Arguments Raise {A} e.

(** [str(e)] as [create_book] uses it for the [detail] of its 500 answer.
    Only the model's failure reaches that clause with a text of its own;
    the other cases are there to make the function total. *)
Definition str_exn (e : exn) : string :=
  match e with
  | HTTPException _ detail => detail
  | RequestValidationError _ => "validation error"
  | MultipleResultsFound => "Multiple rows were found when one or none was required"
  | IntegrityError => "integrity error"
  | ModelError message => message
  | ValueError message => message
  end.

(** The status line the framework answers with when a handler ends in an
    exception: an [HTTPException] carries its own code, a body the schema
    rejects is answered 422, anything else is an internal error. *)
Definition http_status (e : exn) : Z :=
  match e with
  | HTTPException status_code _ => status_code
  | RequestValidationError _ => 422
  | _ => 500
  end.

Definition HTTP_204_NO_CONTENT : Z := 204.
Definition HTTP_400_BAD_REQUEST : Z := 400.

(** ** Rows ([app/models.py]) *)

Record User : Type := mkUser {
  User_id : Z;
  User_username : string;
  User_hashed_password : string
}.

Record Book : Type := mkBook {
  Book_id : Z;
  Book_title : string;
  Book_author : string;
  Book_genre : string;
  Book_year_published : Z;
  Book_summary : option string
}.

Record Review : Type := mkReview {
  Review_id : Z;
  Review_book_id : Z;
  Review_user_id : Z;
  Review_review_text : string;
  Review_rating : float
}.

(** ** Request and response schemas ([app/schemas.py]) *)

Record UserCreate : Type := mkUserCreate {
  UserCreate_username : string;
  UserCreate_password : string
}.

Record UserOut : Type := mkUserOut {
  UserOut_id : Z;
  UserOut_username : string
}.

(** [summary: str = None] is the one optional field.  [None] is "not set by
    the caller" (the field is outside [__fields_set__] and reads as the
    default), [Some None] is an explicit null, [Some (Some s)] a string. *)
Record BookCreate : Type := mkBookCreate {
  BookCreate_title : string;
  BookCreate_author : string;
  BookCreate_genre : string;
  BookCreate_year_published : Z;
  BookCreate_summary : option (option string)
}.

Record ReviewCreate : Type := mkReviewCreate {
  ReviewCreate_book_id : Z;
  ReviewCreate_user_id : Z;
  ReviewCreate_review_text : string;
  ReviewCreate_rating : float
}.

Record SummaryRequest : Type := mkSummaryRequest {
  SummaryRequest_book_content : string
}.

(** A partial book: each field is given or not.  It is the shape of a JSON
    body for a [BookCreate] parameter before the schema has seen it, and of
    the dictionary [book.dict(exclude_unset=True)] hands to [values]. *)
Record BookFields : Type := mkBookFields {
  body_title : option string;
  body_author : option string;
  body_genre : option string;
  body_year_published : option Z;
  body_summary : option (option string)
}.

Definition missing_field {A : Type} (name : string) (o : option A) : list string :=
  match o with
  | Some _ => []
  | None => [name]
  end.

(** Validation of a body against [BookCreate]: the four fields declared
    without a default are required. *)
Definition BookCreate_validate (b : BookFields) : result BookCreate :=
  match body_title b, body_author b, body_genre b, body_year_published b with
  | Some t, Some a, Some g, Some y =>
      Ok (mkBookCreate t a g y (body_summary b))
  | _, _, _, _ =>
      Raise (RequestValidationError
               (missing_field "title" (body_title b)
                ++ missing_field "author" (body_author b)
                ++ missing_field "genre" (body_genre b)
                ++ missing_field "year_published" (body_year_published b)))
  end.

(** [book.dict(exclude_unset=True)]: the fields the caller set.  A validated
    model always has the four required ones. *)
Definition BookCreate_dict_exclude_unset (b : BookCreate) : BookFields :=
  mkBookFields (Some (BookCreate_title b)) (Some (BookCreate_author b))
               (Some (BookCreate_genre b)) (Some (BookCreate_year_published b))
               (BookCreate_summary b).

(** The value a field of the model reads as. *)
Definition BookCreate_summary_value (b : BookCreate) : option string :=
  match BookCreate_summary b with
  | Some v => v
  | None => None
  end.

(** [book.copy(update={"summary": s})]. *)
Definition BookCreate_copy_summary (b : BookCreate) (s : string) : BookCreate :=
  mkBookCreate (BookCreate_title b) (BookCreate_author b) (BookCreate_genre b)
               (BookCreate_year_published b) (Some (Some s)).

(** What [response_model=schemas.BookCreate] keeps of a row, and what the
    dictionaries built by [read_book] hold: the five schema fields, no id. *)
Record BookOut : Type := mkBookOut {
  out_title : string;
  out_author : string;
  out_genre : string;
  out_year_published : Z;
  out_summary : option string
}.

(** What [response_model=UserOut] keeps of a user row. *)
Definition UserOut_of_row (u : User) : UserOut :=
  mkUserOut (User_id u) (User_username u).

Definition BookOut_of_row (b : Book) : BookOut :=
  mkBookOut (Book_title b) (Book_author b) (Book_genre b)
            (Book_year_published b) (Book_summary b).

(** ** The store *)

(** The three tables, each in storage order. *)
Record Store : Type := mkStore {
  users : list User;
  books : list Book;
  reviews : list Review
}.

(** A handler is a function of the session: it ends in a value or in an
    exception, and leaves a store behind.  Every write of the repository is
    followed at once by [commit], so a write is one step here. *)
Definition M (A : Type) : Type := Store -> result A * Store.

Definition ret {A : Type} (a : A) : M A := fun db => (Ok a, db).

Definition raise {A : Type} (e : exn) : M A := fun db => (Raise e, db).

Definition bind {A B : Type} (m : M A) (k : A -> M B) : M B :=
  fun db =>
    match m db with
    | (Ok a, db') => k a db'
    | (Raise e, db') => (Raise e, db')
    end.

(** [try: body / except Exception as e: handler e].  Every constructor of
    [exn] is an [Exception], so the clause takes them all. *)
Definition try_except {A : Type} (body : M A) (handler : exn -> M A) : M A :=
  fun db =>
    match body db with
    | (Ok a, db') => (Ok a, db')
    | (Raise e, db') => handler e db'
    end.

Definition lift {A : Type} (r : result A) : M A := fun db => (r, db).

Declare Scope handler_scope.
Delimit Scope handler_scope with handler.
Notation "x <- m ;; k" := (bind m (fun x => k))
  (at level 61, m at next level, right associativity) : handler_scope.
Notation "m ;;; k" := (bind m (fun _ => k))
  (at level 61, right associativity) : handler_scope.
Local Open Scope handler_scope.

(** ** Query results *)

(** [result.scalars().first()]. *)
Definition first {A : Type} (rows : list A) : option A := hd_error rows.

(** [result.scalar_one_or_none()]. *)
Definition scalar_one_or_none {A : Type} (rows : list A) : result (option A) :=
  match rows with
  | [] => Ok None
  | [r] => Ok (Some r)
  | _ :: _ :: _ => Raise MultipleResultsFound
  end.

(** The key the database gives a new row.  The repository leaves the choice
    to the store; here it is one past the largest key in the table. *)
Definition next_id (ids : list Z) : Z := 1 + fold_right Z.max 0 ids.

(** [select(models.Book).where(models.Book.id == book_id)]. *)
Definition select_books_by_id (book_id : Z) (db : Store) : list Book :=
  filter (fun b => Book_id b =? book_id) (books db).

(** [select(models.Review).where(models.Review.book_id == book_id)]. *)
Definition select_reviews_by_book (book_id : Z) (db : Store) : list Review :=
  filter (fun r => Review_book_id r =? book_id) (reviews db).

(** [select(User).where(User.username == username)]. *)
Definition select_users_by_username (username : string) (db : Store) : list User :=
  filter (fun u => String.eqb (User_username u) username) (users db).

(** ** Strings *)

(** The characters [str.strip()] removes, among the first 128: tab, line
    feed, vertical tab, form feed, carriage return, the four separators
    28 to 31, and the space. *)
Definition is_space (c : ascii) : bool :=
  let n := N_of_ascii c in
  (((9 <=? n) && (n <=? 13)) || ((28 <=? n) && (n <=? 32)))%N.

Fixpoint lstrip (s : string) : string :=
  match s with
  | EmptyString => EmptyString
  | String c s' => if is_space c then lstrip s' else s
  end.

Fixpoint rstrip (s : string) : string :=
  match s with
  | EmptyString => EmptyString
  | String c s' =>
      match rstrip s' with
      | EmptyString => if is_space c then EmptyString else String c EmptyString
      | t => String c t
      end
  end.

Definition strip (s : string) : string := rstrip (lstrip s).

Definition newline : string := String (ascii_of_nat 10) EmptyString.

(** ** Store operations ([app/crud.py]) *)

Module crud.

(** [models.Book] built from [jsonable_encoder(book)], [add], [commit],
    [refresh]:
    the row gets its key from the store and goes to the end of the table. *)
Definition insert_book_data (book : BookCreate) : M Book :=
  fun db =>
    let db_book :=
      mkBook (next_id (map Book_id (books db)))
             (BookCreate_title book) (BookCreate_author book)
             (BookCreate_genre book) (BookCreate_year_published book)
             (BookCreate_summary_value book) in
    (Ok db_book, mkStore (users db) (books db ++ [db_book]) (reviews db)).

Definition get_book (book_id : Z) : M (option Book) :=
  fun db => (Ok (first (select_books_by_id book_id db)), db).

(** [skip] and [limit] are parameters of the function; the query is
    [select(models.Book)] and the answer is [.all()] of it. *)
Definition get_books (skip limit : Z) : M (list Book) :=
  fun db => (Ok (books db), db).

(** [values] of the given fields on one row: a column named in [fields] takes the new
    value, every other column keeps its own. *)
Definition Book_assign (fields : BookFields) (row : Book) : Book :=
  mkBook (Book_id row)
         (match body_title fields with Some t => t | None => Book_title row end)
         (match body_author fields with Some a => a | None => Book_author row end)
         (match body_genre fields with Some g => g | None => Book_genre row end)
         (match body_year_published fields with
          | Some y => y
          | None => Book_year_published row
          end)
         (match body_summary fields with Some s => s | None => Book_summary row end).

(** [update(models.Book).where(models.Book.id == book_id).values(...)]:
    executes the statement and answers the number of rows it matched. *)
Definition execute_update_books (book_id : Z) (fields : BookFields) : M Z :=
  fun db =>
    (Ok (Z.of_nat (List.length (select_books_by_id book_id db))),
     mkStore (users db)
             (map (fun b => if Book_id b =? book_id then Book_assign fields b else b)
                  (books db))
             (reviews db)).

Definition update_book_data (book_id : Z) (book : BookCreate) : M (option Book) :=
  rowcount <- execute_update_books book_id (BookCreate_dict_exclude_unset book) ;;
  if rowcount =? 0
  then raise (HTTPException 404 "Book not found")
  else get_book book_id.

Section Engine.

(** Whether the database engine enforces the foreign key that
    [app/models.py] declares on [reviews.book_id], with its
    [ondelete="CASCADE"].  The engine is the one [DATABASE_URL] names;
    nothing in the repository chooses it or switches enforcement on. *)
Variable foreign_keys : bool.

(** [delete(models.Book).where(models.Book.id == book_id)]: the statement
    names the books table only.  An engine that enforces the foreign key
    drops the reviews of a dropped book with it; another leaves them. *)
Definition execute_delete_books (book_id : Z) : M unit :=
  fun db =>
    (Ok tt,
     mkStore (users db)
             (filter (fun b => negb (Book_id b =? book_id)) (books db))
             (if foreign_keys
              then filter (fun r => negb (Review_book_id r =? book_id)) (reviews db)
              else reviews db)).

Definition delete_book_data (book_id : Z) : M bool :=
  book <- (fun db => (scalar_one_or_none (select_books_by_id book_id db), db)) ;;
  match book with
  | None => raise (HTTPException 404 "Book not found")
  | Some _ => execute_delete_books book_id ;;; ret true
  end.

(** [models.Review] built from [jsonable_encoder(review)], [add],
    [commit], [refresh]: the function checks nothing.  An engine that
    enforces the foreign key refuses, at the commit, a row whose book is not
    in the books table, and nothing is written; another stores the row. *)
Definition insert_review_data (review : ReviewCreate) : M Review :=
  fun db =>
    if foreign_keys
       && negb (existsb (fun b => Book_id b =? ReviewCreate_book_id review)
                        (books db))
    then (Raise IntegrityError, db)
    else
      let db_review :=
        mkReview (next_id (map Review_id (reviews db)))
                 (ReviewCreate_book_id review) (ReviewCreate_user_id review)
                 (ReviewCreate_review_text review) (ReviewCreate_rating review) in
      (Ok db_review, mkStore (users db) (books db) (reviews db ++ [db_review])).

End Engine.

Definition get_review (book_id : Z) : M (list Review) :=
  fun db =>
    match select_reviews_by_book book_id db with
    | [] => (Raise (HTTPException 404 "Review not found"), db)
    | reviews => (Ok reviews, db)
    end.

End crud.

(** ** Registration ([app/auth.py]) *)

Module auth.

Section Register.

(** [utils.hash_password] hands the password to a hashing library, which
    answers a hash or raises (a password it does not accept). *)
Variable hash_password : string -> result string.

(** [db.add(User(...))], [commit], [refresh].  [username] is declared
    [unique=True]: the store refuses a second row with the same name. *)
Definition insert_user (username hashed_password : string) : M User :=
  fun db =>
    if existsb (fun u => String.eqb (User_username u) username) (users db)
    then (Raise IntegrityError, db)
    else
      let new_user :=
        mkUser (next_id (map User_id (users db))) username hashed_password in
      (Ok new_user, mkStore (users db ++ [new_user]) (books db) (reviews db)).

(** The whole body of [register] sits in one [try]; its [except Exception]
    clause answers 500 with a fixed detail. *)
Definition register (user : UserCreate) : M User :=
  try_except
    (existing_user <-
       (fun db =>
          (scalar_one_or_none
             (select_users_by_username (UserCreate_username user) db), db)) ;;
     match existing_user with
     | Some _ =>
         raise (HTTPException HTTP_400_BAD_REQUEST "Username already registered")
     | None =>
         hashed_password <- lift (hash_password (UserCreate_password user)) ;;
         new_user <- insert_user (UserCreate_username user) hashed_password ;;
         ret new_user
     end)
    (fun e => raise (HTTPException 500 "Internal server error")).

End Register.

End auth.

(** ** Request handlers ([app/main.py]) *)

Module main.

Record Response : Type := mkResponse {
  Response_status_code : Z
}.

Record SummaryOut : Type := mkSummaryOut {
  SummaryOut_summary : string
}.

Definition read_books (skip limit : Z) : M (list Book) :=
  books <- crud.get_books skip limit ;;
  ret books.

Definition read_book (book_id : Z) : M BookOut :=
  db_book <- crud.get_book book_id ;;
  match db_book with
  | None => raise (HTTPException 404 "Book not found")
  | Some db_book => ret (BookOut_of_row db_book)
  end.

Definition update_book (book_id : Z) (book : BookCreate) : M (option Book) :=
  db_book <- crud.get_book book_id ;;
  match db_book with
  | None => raise (HTTPException 404 "Book not found")
  | Some _ =>
      updated_book <- crud.update_book_data book_id book ;;
      ret updated_book
  end.

(** [PUT /books/{book_id}] as a client meets it: the body is checked against
    the schema of the [book] parameter before [update_book] runs. *)
Definition put_book (book_id : Z) (body : BookFields) : M (option Book) :=
  book <- lift (BookCreate_validate body) ;;
  update_book book_id book.

Section Engine.

(** The engine's handling of the foreign key, as in [crud]. *)
Variable foreign_keys : bool.

Definition delete_book (book_id : Z) : M Response :=
  db_book <- crud.get_book book_id ;;
  match db_book with
  | None => raise (HTTPException 404 "Book not found")
  | Some _ =>
      response <- crud.delete_book_data foreign_keys book_id ;;
      ret (mkResponse HTTP_204_NO_CONTENT)
  end.

Definition create_review_for_book (book_id : Z) (review : ReviewCreate) : M Review :=
  db_book <- crud.get_book book_id ;;
  match db_book with
  | None => raise (HTTPException 404 "Book not found")
  | Some _ =>
      db_review <- crud.insert_review_data foreign_keys review ;;
      ret db_review
  end.

End Engine.

(** The handler of [GET /books/{book_id}/reviews].  (The module gives the
    same name to the handler of the summary route further down; each route
    keeps the function it was declared with.) *)
Definition read_reviews_for_book (book_id : Z) : M (list Review) :=
  db_book <- crud.get_book book_id ;;
  match db_book with
  | None => raise (HTTPException 404 "Book not found")
  | Some _ =>
      reviews <- crud.get_review book_id ;;
      ret reviews
  end.

Section Model.

(** The language model: given a prompt it answers a text or fails. *)
Variable llm : string -> result string.

Definition generate (prompt : string) : result string := llm prompt.

Definition create_book (book : BookCreate) : M Book :=
  let prompt :=
    ("Summarize book title " ++ BookCreate_title book ++ " by "
       ++ BookCreate_author book ++ " in 150 words.")%string in
  try_except
    (response <- lift (generate prompt) ;;
     let update_book := BookCreate_copy_summary book response in
     db_book <- crud.insert_book_data update_book ;;
     ret db_book)
    (fun e => raise (HTTPException 500 (str_exn e))).

(** No session here: the function answers a string whatever the model
    does. *)
Definition summarize_with_llamacpp (content : string) : string :=
  let prompt_ := ("Summarize the following content:" ++ newline ++ content)%string in
  match generate prompt_ with
  | Ok generate_summary => strip generate_summary
  | Raise e => "Summary generation failed."
  end.

Definition generate_summary (request : SummaryRequest) : result SummaryOut :=
  let summary := summarize_with_llamacpp (SummaryRequest_book_content request) in
  if String.eqb summary "Summary generation failed."
  then Raise (HTTPException 500 "Failed to generate summary.")
  else Ok (mkSummaryOut summary).

End Model.

End main.

(** ** The basic-auth gate ([app/auth.py], [get_current_user]) *)

Module auth_gate.

Record HTTPBasicCredentials : Type := mkHTTPBasicCredentials {
  credentials_username : string;
  credentials_password : string
}.

(** The ways [get_current_user] ends.  Its [HTTPException] carries response
    headers besides the code and the detail, so it has a case of its own;
    [Raises] is any exception the query raises. *)
Inductive outcome (A : Type) : Type :=
| Returns (a : A)
| RaisesHTTP (status_code : Z) (detail : string) (headers : list (string * string))
| Raises (e : exn).
Arguments Returns {A} a.
Arguments RaisesHTTP {A} status_code detail headers.
Arguments Raises {A} e.

Definition HTTP_401_UNAUTHORIZED : Z := 401.

Section Gate.

(** [utils.verify_password plain hashed] asks the hashing library, which
    answers yes or no, or raises. *)
Variable verify_password : string -> string -> result bool.

(** One query and no write: the function is given the store and answers.
    [not user or not verify_password(...)] looks at the password only when
    a row was found, and sits in no [try]: what the library raises leaves
    the function as it is. *)
Definition get_current_user (credentials : HTTPBasicCredentials) (db : Store)
  : outcome User :=
  match scalar_one_or_none
          (select_users_by_username (credentials_username credentials) db) with
  | Raise e => Raises e
  | Ok None =>
      RaisesHTTP HTTP_401_UNAUTHORIZED "Invalid username or password"
                 [("WWW-Authenticate", "Basic")]
  | Ok (Some user) =>
      match verify_password (credentials_password credentials)
                            (User_hashed_password user) with
      | Raise e => Raises e
      | Ok verified =>
          if negb verified
          then RaisesHTTP HTTP_401_UNAUTHORIZED "Invalid username or password"
                          [("WWW-Authenticate", "Basic")]
          else Returns user
      end
  end.

End Gate.

End auth_gate.

(** ** The remaining handlers of [app/main.py] *)

Module main_rest.

Record Recommendation : Type := mkRecommendation {
  recommend_book : string
}.

(** The handler of [GET /books/{book_id}/summary]; the source gives it the
    name of the reviews handler. *)
Definition read_reviews_for_book (book_id : Z) : M BookOut :=
  db_book <- crud.get_book book_id ;;
  match db_book with
  | None => raise (HTTPException 404 "Book not found")
  | Some db_book =>
      ret (mkBookOut (Book_title db_book) (Book_author db_book)
                     (Book_genre db_book) (Book_year_published db_book)
                     (Book_summary db_book))
  end.

Section Model.

Variable llm : string -> result string.

Definition recommend_books (prompt : string) : result Recommendation :=
  let prompt_ := ("Recommend 5 books based on: " ++ prompt)%string in
  match main.generate llm prompt_ with
  | Ok recommendations => Ok (mkRecommendation recommendations)
  | Raise e => Raise (HTTPException 500 (str_exn e))
  end.

End Model.

End main_rest.

(** ** What the statements below speak of *)

(** A book with this key is stored. *)
Definition has_book (db : Store) (book_id : Z) : Prop :=
  exists b, In b (books db) /\ Book_id b = book_id.

(** [b] is the stored row with this key. *)
Definition stored_book (db : Store) (book_id : Z) (b : Book) : Prop :=
  In b (books db) /\ Book_id b = book_id.

(** [id] is the primary key of the books table: no two rows share it. *)
Definition books_primary_key (db : Store) : Prop :=
  NoDup (map Book_id (books db)).

(** A user row with this name is stored. *)
Definition has_username (db : Store) (username : string) : Prop :=
  exists u, In u (users db) /\ User_username u = username.

(** The answer is the 404 of the error taxonomy. *)
Definition NotFound {A : Type} (r : result A) : Prop :=
  exists detail, r = Raise (HTTPException 404 detail).

(** The answer is the 400 a duplicate registration is documented to get. *)
Definition DuplicateIdentity {A : Type} (r : result A) : Prop :=
  exists detail, r = Raise (HTTPException 400 detail).

(** The body carries the four fields the schema requires. *)
Definition has_required_fields (body : BookFields) : bool :=
  match body_title body, body_author body, body_genre body,
        body_year_published body with
  | Some _, Some _, Some _, Some _ => true
  | _, _, _, _ => false
  end.

(** One field of a row after a partial update: the value the request
    gives when it gives one, the stored value otherwise. *)
Definition field_after {A : Type} (given : option A) (old new : A) : Prop :=
  match given with
  | Some v => new = v
  | None => new = old
  end.

(** [new] differs from [old] only in the fields present in [fields]. *)
Definition only_given_fields_changed (fields : BookFields) (old new : Book) : Prop :=
  Book_id new = Book_id old
  /\ field_after (body_title fields) (Book_title old) (Book_title new)
  /\ field_after (body_author fields) (Book_author old) (Book_author new)
  /\ field_after (body_genre fields) (Book_genre old) (Book_genre new)
  /\ field_after (body_year_published fields)
                 (Book_year_published old) (Book_year_published new)
  /\ field_after (body_summary fields) (Book_summary old) (Book_summary new).

(** The prompt [create_book] sends to the model for a book. *)
Definition book_prompt (book : BookCreate) : string :=
  ("Summarize book title " ++ BookCreate_title book ++ " by "
     ++ BookCreate_author book ++ " in 150 words.")%string.

(** The store after the rows with this key took [fields]. *)
Definition books_updated (book_id : Z) (fields : BookFields) (db : Store) : Store :=
  mkStore (users db)
          (map (fun b => if Book_id b =? book_id then crud.Book_assign fields b else b)
               (books db))
          (reviews db).

(** The store after the rows with this key went, and with them, on an
    engine that enforces the foreign key, their reviews. *)
Definition books_deleted (foreign_keys : bool) (book_id : Z) (db : Store) : Store :=
  mkStore (users db)
          (filter (fun b => negb (Book_id b =? book_id)) (books db))
          (if foreign_keys
           then filter (fun r => negb (Review_book_id r =? book_id)) (reviews db)
           else reviews db).

(** The prompt [summarize_with_llamacpp] sends to the model for a text. *)
Definition summary_prompt (content : string) : string :=
  ("Summarize the following content:" ++ newline ++ content)%string.

(** A review of this book is stored. *)
Definition has_review (db : Store) (book_id : Z) : Prop :=
  exists r, In r (reviews db) /\ Review_book_id r = book_id.

(** *** The stores the service can be in *)

Definition empty_store : Store := mkStore [] [] [].

(** [username] is unique among the users. *)
Definition usernames_unique (db : Store) : Prop :=
  NoDup (map User_username (users db)).

(** What the tables keep whatever the engine: the primary key of the books
    and the uniqueness of usernames. *)
Record store_ok (db : Store) : Prop := mk_store_ok {
  ok_books_primary_key : books_primary_key db;
  ok_usernames_unique : usernames_unique db
}.

Section Service.

Variable hash_password : string -> result string.
Variable llm : string -> result string.
Variable foreign_keys : bool.

(** The requests that write to the store. *)
Inductive request : Type :=
| Register (user : UserCreate)
| CreateBook (book : BookCreate)
| PutBook (book_id : Z) (body : BookFields)
| DeleteBook (book_id : Z)
| CreateReview (book_id : Z) (review : ReviewCreate).

(** The store a request leaves behind, whatever it answers. *)
Definition serve (q : request) (db : Store) : Store :=
  match q with
  | Register user => snd (auth.register hash_password user db)
  | CreateBook book => snd (main.create_book llm book db)
  | PutBook book_id body => snd (main.put_book book_id body db)
  | DeleteBook book_id => snd (main.delete_book foreign_keys book_id db)
  | CreateReview book_id review =>
      snd (main.create_review_for_book foreign_keys book_id review db)
  end.

(** The stores reached from the empty one, request after request. *)
Inductive reachable : Store -> Prop :=
| reachable_empty : reachable empty_store
| reachable_serve (q : request) (db : Store) :
    reachable db -> reachable (serve q db).

End Service.

(** The string [summarize_with_llamacpp] answers in place of an error. *)
Definition sentinel : string := "Summary generation failed.".

(** The first character is one [str.strip()] removes. *)
Definition starts_with_space (s : string) : bool :=
  match s with
  | EmptyString => false
  | String c _ => is_space c
  end.

(** The last character is one [str.strip()] removes. *)
Fixpoint ends_with_space (s : string) : bool :=
  match s with
  | EmptyString => false
  | String c EmptyString => is_space c
  | String _ t => ends_with_space t
  end.

(** Every character is one [str.strip()] removes. *)
Fixpoint blank (s : string) : bool :=
  match s with
  | EmptyString => true
  | String c t => is_space c && blank t
  end.

(** The prompt [recommend_books] sends to the model. *)
Definition recommend_prompt (prompt : string) : string :=
  ("Recommend 5 books based on: " ++ prompt)%string.

(** The answer [get_current_user] gives to credentials it refuses. *)
Definition unauthorized : auth_gate.outcome User :=
  auth_gate.RaisesHTTP 401 "Invalid username or password"
                       [("WWW-Authenticate", "Basic")].

(** What the gate makes of the library's answer for a row it found. *)
Definition gate_answer (u : User) (verified : result bool) : auth_gate.outcome User :=
  match verified with
  | Ok true => auth_gate.Returns u
  | Ok false => unauthorized
  | Raise e => auth_gate.Raises e
  end.

(** The row [register] writes for a user, given the hash of the password
    and the users already stored. *)
Definition registered_row (hashed_password : string) (user : UserCreate) (db : Store)
  : User :=
  mkUser (next_id (map User_id (users db))) (UserCreate_username user)
         hashed_password.

(** Two requests to create a book say the same of the four required
    fields. *)
Definition same_required_fields (b1 b2 : BookCreate) : Prop :=
  BookCreate_title b1 = BookCreate_title b2
  /\ BookCreate_author b1 = BookCreate_author b2
  /\ BookCreate_genre b1 = BookCreate_genre b2
  /\ BookCreate_year_published b1 = BookCreate_year_published b2.

(** ** A small store to run the handlers on *)

Module Sample.

Definition alice : User := mkUser 1 "alice" "$2b$12$hash.of.secret".

Definition dune : Book :=
  mkBook 1 "Dune" "Herbert" "SF" 1965 (Some "A desert planet and its spice.").

Definition emma : Book := mkBook 2 "Emma" "Austen" "Novel" 1815 None.

Definition praise : Review := mkReview 1 1 1 "Worth the sand." 4.5%float.

Definition db0 : Store := mkStore [alice] [dune; emma] [praise].

(** A hashing library: like the one in use it takes no password with a
    NUL character in it. *)
Fixpoint has_nul (s : string) : bool :=
  match s with
  | EmptyString => false
  | String c t => (N_of_ascii c =? 0)%N || has_nul t
  end.

Definition hash (password : string) : result string :=
  if has_nul password
  then Raise (ValueError "NULL byte found in password")
  else Ok ("$2b$12$" ++ password)%string.

Definition title_only : BookFields :=
  mkBookFields (Some "X") None None None None.

Definition retitled : BookFields :=
  mkBookFields (Some "X") (Some "Herbert") (Some "SF") (Some 1965) None.

Definition solaris : BookCreate :=
  mkBookCreate "Solaris" "Lem" "SF" 1961 None.

Definition solaris_row : Book :=
  mkBook 3 "Solaris" "Lem" "SF" 1961 (Some " A planet of sand. ").

Definition solaris_db : Store :=
  mkStore [alice] [dune; emma; solaris_row] [praise].

Definition lost : ReviewCreate := mkReviewCreate 999 1 "Lost." 2%float.

Definition misfiled : ReviewCreate := mkReviewCreate 2 1 "Filed under Dune." 3%float.

(** A model that answers at once with nothing, one that answers a line,
    and one that is down. *)
Definition silent (prompt : string) : result string := Ok "".

Definition terse (prompt : string) : result string := Ok " A planet of sand. ".

Definition down (prompt : string) : result string :=
  Raise (ModelError "model file not loaded").

(** A password check that agrees with [hash]. *)
Definition verify (plain hashed : string) : result bool :=
  if has_nul plain
  then Raise (ValueError "NULL byte found in password")
  else Ok (String.eqb hashed ("$2b$12$" ++ plain)).

Definition nul : string := String (ascii_of_nat 0) EmptyString.

Definition orphan_row : Review := mkReview 2 999 1 "Lost." 2%float.

Definition bob : UserCreate := mkUserCreate "bob" "pw".

Definition bob_row : User := mkUser 2 "bob" "$2b$12$pw".

Definition db_with_bob : Store := mkStore [alice; bob_row] [dune; emma] [praise].

Definition solaris_blurbed : BookCreate :=
  mkBookCreate "Solaris" "Lem" "SF" 1961 (Some (Some "An ocean that thinks.")).

Definition blank_model (prompt : string) : result string :=
  Ok ("  " ++ newline)%string.

Definition second_opinion : ReviewCreate :=
  mkReviewCreate 1 1 "Read it twice." 5%float.

Definition second_opinion_row : Review :=
  mkReview 2 1 1 "Read it twice." 5%float.

End Sample.

Example register_new_user :
  auth.register Sample.hash (mkUserCreate "bob" "pw") Sample.db0
  = (Ok (mkUser 2 "bob" "$2b$12$pw"),
     mkStore [Sample.alice; mkUser 2 "bob" "$2b$12$pw"]
             [Sample.dune; Sample.emma] [Sample.praise]).
Proof. reflexivity. Qed.

Example read_book_unknown :
  main.read_book 999 Sample.db0
  = (Raise (HTTPException 404 "Book not found"), Sample.db0).
Proof. reflexivity. Qed.

Example strip_spaces :
  strip ("  two words " ++ newline) = "two words".
Proof. reflexivity. Qed.

(** ** Lemmas on the queries *)

Lemma select_books_by_id_In (db : Store) (book_id : Z) (b : Book) :
  In b (select_books_by_id book_id db) <-> stored_book db book_id b.
Proof.
  unfold select_books_by_id, stored_book.
  rewrite filter_In, Z.eqb_eq. reflexivity.
Qed.

Lemma select_books_by_id_none (db : Store) (book_id : Z) :
  ~ has_book db book_id -> select_books_by_id book_id db = [].
Proof.
  intros Hno.
  destruct (select_books_by_id book_id db) as [|b rest] eqn:E; [reflexivity|].
  exfalso. apply Hno. exists b.
  apply select_books_by_id_In. rewrite E. left. reflexivity.
Qed.

Lemma select_books_by_id_some (db : Store) (book_id : Z) :
  has_book db book_id ->
  exists b rest, select_books_by_id book_id db = b :: rest.
Proof.
  intros [b Hb].
  apply select_books_by_id_In in Hb.
  destruct (select_books_by_id book_id db) as [|b' rest]; [contradiction|].
  eauto.
Qed.

Lemma get_book_none (db : Store) (book_id : Z) :
  ~ has_book db book_id -> crud.get_book book_id db = (Ok None, db).
Proof.
  intros Hno. unfold crud.get_book.
  rewrite (select_books_by_id_none _ _ Hno). reflexivity.
Qed.

Lemma get_book_some (db : Store) (book_id : Z) :
  has_book db book_id ->
  exists b, crud.get_book book_id db = (Ok (Some b), db) /\ stored_book db book_id b.
Proof.
  intros Hb. unfold crud.get_book.
  destruct (select_books_by_id_some _ _ Hb) as (b & rest & E).
  exists b. split.
  - rewrite E. reflexivity.
  - apply select_books_by_id_In. rewrite E. left. reflexivity.
Qed.

(** Under the primary key the query by key has exactly one row. *)
Lemma filter_by_key_unique (l : list Book) (b : Book) :
  NoDup (map Book_id l) -> In b l ->
  filter (fun x => Book_id x =? Book_id b) l = [b].
Proof.
  induction l as [|a l IH]; simpl; intros Hnd Hin; [contradiction|].
  inversion Hnd as [|? ? Hnotin Hnd']; subst.
  destruct Hin as [->|Hin].
  - rewrite Z.eqb_refl. f_equal.
    destruct (filter (fun x => Book_id x =? Book_id b) l) as [|c rest] eqn:E;
      [reflexivity|].
    exfalso. apply Hnotin.
    assert (Hc : In c (filter (fun x => Book_id x =? Book_id b) l))
      by (rewrite E; left; reflexivity).
    apply filter_In in Hc. destruct Hc as [Hc Hid].
    apply Z.eqb_eq in Hid. rewrite <- Hid. apply in_map. exact Hc.
  - destruct (Book_id a =? Book_id b) eqn:Hab.
    + exfalso. apply Hnotin. apply Z.eqb_eq in Hab. rewrite Hab.
      apply in_map. exact Hin.
    + apply IH; assumption.
Qed.

Lemma select_books_by_id_unique (db : Store) (book_id : Z) (b : Book) :
  books_primary_key db -> stored_book db book_id b ->
  select_books_by_id book_id db = [b].
Proof.
  intros Hpk [Hin <-]. apply filter_by_key_unique; assumption.
Qed.

(** The key of a new row is in use by no row of the table. *)
Lemma next_id_above (ids : list Z) (x : Z) : In x ids -> x < next_id ids.
Proof.
  unfold next_id. induction ids as [|a ids IH]; cbn [fold_right In];
    [contradiction|].
  intros [->|Hin]; [lia|]. specialize (IH Hin). lia.
Qed.

Lemma next_id_fresh (ids : list Z) : ~ In (next_id ids) ids.
Proof.
  intros Hin. apply next_id_above in Hin. lia.
Qed.

Lemma select_users_by_username_some (db : Store) (username : string) :
  has_username db username ->
  exists u rest, select_users_by_username username db = u :: rest.
Proof.
  intros (u & Hin & Hname).
  assert (Hu : In u (select_users_by_username username db)).
  { unfold select_users_by_username. apply filter_In. split; [exact Hin|].
    apply String.eqb_eq. exact Hname. }
  destruct (select_users_by_username username db) as [|u' rest];
    [contradiction|eauto].
Qed.

(** ** Registration *)

(** C1, as the code runs it.  For every store and every username already in
    it, [register] writes nothing, and the answer is the 500 of the
    [except Exception] clause, not a [DuplicateIdentity]: the 400 raised for
    the duplicate is itself an [Exception] raised inside the [try], so the
    clause replaces it. *)
Theorem register_existing_username_answers_500
  (hash_password : string -> result string) (db : Store) (user : UserCreate) :
  has_username db (UserCreate_username user) ->
  auth.register hash_password user db
  = (Raise (HTTPException 500 "Internal server error"), db)
  /\ ~ DuplicateIdentity (fst (auth.register hash_password user db)).
Proof.
  intros Hdup.
  destruct (select_users_by_username_some _ _ Hdup) as (u & rest & E).
  assert (Hrun : auth.register hash_password user db
                 = (Raise (HTTPException 500 "Internal server error"), db)).
  { unfold auth.register, try_except, bind. rewrite E.
    destruct rest; reflexivity. }
  split; [exact Hrun|].
  rewrite Hrun. intros [detail Hd]. discriminate Hd.
Qed.

Lemma sample_has_alice : has_username Sample.db0 "alice".
Proof. exists Sample.alice. split; [left|]; reflexivity. Defined.

(** The second registration of "alice" in the sample store. *)
Lemma register_alice_twice :
  has_username Sample.db0 "alice"
  /\ auth.register Sample.hash (mkUserCreate "alice" "other") Sample.db0
     = (Raise (HTTPException 500 "Internal server error"), Sample.db0)
  /\ ~ DuplicateIdentity
        (fst (auth.register Sample.hash (mkUserCreate "alice" "other") Sample.db0)).
Proof.
  split; [exact sample_has_alice|].
  exact (register_existing_username_answers_500
           Sample.hash Sample.db0 (mkUserCreate "alice" "other") sample_has_alice).
Defined.

(** ** Reviews of a book that is not there *)

(** C2.  When no book has the key in the path, [create_review_for_book]
    answers [NotFound] and leaves the store it was given: no review row is
    written, whatever the body says and whatever the engine. *)
Theorem create_review_unknown_book_not_found
  (foreign_keys : bool) (db : Store) (book_id : Z) (review : ReviewCreate) :
  ~ has_book db book_id ->
  NotFound (fst (main.create_review_for_book foreign_keys book_id review db))
  /\ snd (main.create_review_for_book foreign_keys book_id review db) = db.
Proof.
  intros Hno.
  assert (E : main.create_review_for_book foreign_keys book_id review db
              = (Raise (HTTPException 404 "Book not found"), db)).
  { unfold main.create_review_for_book, bind.
    rewrite (get_book_none _ _ Hno). reflexivity. }
  rewrite E. split; [|reflexivity].
  exists "Book not found". reflexivity.
Qed.

Lemma create_review_unknown_book_witness :
  ~ has_book Sample.db0 999
  /\ NotFound (fst (main.create_review_for_book false 999 Sample.lost Sample.db0))
  /\ snd (main.create_review_for_book false 999 Sample.lost Sample.db0)
     = Sample.db0.
Proof.
  assert (H : ~ has_book Sample.db0 999).
  { intros (b & Hin & Hid). simpl in Hin.
    destruct Hin as [<-|[<-|[]]]; discriminate Hid. }
  split; [exact H|].
  exact (create_review_unknown_book_not_found
           false Sample.db0 999 Sample.lost H).
Defined.

(** ** Listing *)

(** C4.  [read_books] answers every row of the books table, in storage
    order, whatever [skip] and [limit] are; two calls with different windows
    answer the same. *)
Theorem read_books_ignores_window (db : Store) (skip limit : Z) :
  main.read_books skip limit db = (Ok (books db), db)
  /\ forall skip' limit' : Z,
       main.read_books skip' limit' db = main.read_books skip limit db.
Proof.
  split; [reflexivity|]. intros; reflexivity.
Qed.

Example read_books_second_page :
  main.read_books 1 1 Sample.db0 = (Ok [Sample.dune; Sample.emma], Sample.db0).
Proof. reflexivity. Qed.

(** ** Partial update *)

Lemma filter_map_same_key {A : Type} (p : A -> bool) (f : A -> A) (l : list A) :
  (forall x, p (f x) = p x) -> filter p (map f l) = map f (filter p l).
Proof.
  intros Hp. induction l as [|a l IH]; simpl; [reflexivity|].
  rewrite Hp. destruct (p a); simpl; rewrite IH; reflexivity.
Qed.

Lemma select_books_by_id_updated
  (db : Store) (book_id : Z) (fields : BookFields) (old : Book) :
  books_primary_key db -> stored_book db book_id old ->
  select_books_by_id book_id (books_updated book_id fields db)
  = [crud.Book_assign fields old].
Proof.
  intros Hpk Hold.
  unfold select_books_by_id, books_updated; cbn [books].
  rewrite filter_map_same_key.
  - pose proof (select_books_by_id_unique _ _ _ Hpk Hold) as E.
    unfold select_books_by_id in E. rewrite E. cbn [map].
    destruct Hold as [_ Hid]. rewrite Hid, Z.eqb_refl. reflexivity.
  - intros x. destruct (Book_id x =? book_id) eqn:Hx; simpl; exact Hx.
Qed.

(** The handler on a model the schema has accepted: every row with the key
    takes the fields the model has set, and the answer is the row read back. *)
Lemma update_book_run
  (db : Store) (book_id : Z) (book : BookCreate) (old : Book) :
  books_primary_key db -> stored_book db book_id old ->
  main.update_book book_id book db
  = (Ok (Some (crud.Book_assign (BookCreate_dict_exclude_unset book) old)),
     books_updated book_id (BookCreate_dict_exclude_unset book) db).
Proof.
  intros Hpk Hold.
  pose proof (select_books_by_id_unique _ _ _ Hpk Hold) as E.
  unfold main.update_book, crud.update_book_data, crud.execute_update_books,
    crud.get_book, bind, ret, raise.
  rewrite E. cbn [first hd_error].
  fold (books_updated book_id (BookCreate_dict_exclude_unset book) db).
  rewrite E. cbn [List.length Z.of_nat Pos.of_succ_nat Z.eqb].
  rewrite (select_books_by_id_updated _ _ _ _ Hpk Hold).
  reflexivity.
Qed.

Lemma validate_required (body : BookFields) :
  has_required_fields body = true ->
  exists book,
    BookCreate_validate body = Ok book
    /\ BookCreate_dict_exclude_unset book = body.
Proof.
  destruct body as [[t|] [a|] [g|] [y|] s]; cbn; try discriminate.
  intros _. eexists. split; reflexivity.
Qed.

Lemma Book_assign_only_given (fields : BookFields) (old : Book) :
  only_given_fields_changed fields old (crud.Book_assign fields old).
Proof.
  unfold only_given_fields_changed, field_after, crud.Book_assign; cbn.
  repeat split.
  - destruct (body_title fields); reflexivity.
  - destruct (body_author fields); reflexivity.
  - destruct (body_genre fields); reflexivity.
  - destruct (body_year_published fields); reflexivity.
  - destruct (body_summary fields); reflexivity.
Qed.

Lemma books_updated_other_rows
  (db : Store) (book_id : Z) (fields : BookFields) (b : Book) :
  Book_id b <> book_id ->
  In b (books (books_updated book_id fields db)) <-> In b (books db).
Proof.
  intros Hne. unfold books_updated; cbn [books]. rewrite in_map_iff. split.
  - intros (x & Hx & Hin).
    destruct (Book_id x =? book_id) eqn:Hk.
    + exfalso. apply Hne. subst b. apply Z.eqb_eq in Hk. exact Hk.
    + subst b. exact Hin.
  - intros Hin. exists b. split; [|exact Hin].
    apply Z.eqb_neq in Hne. rewrite Hne. reflexivity.
Qed.

Lemma books_updated_keys (db : Store) (book_id : Z) (fields : BookFields) :
  map Book_id (books (books_updated book_id fields db)) = map Book_id (books db).
Proof.
  unfold books_updated; cbn [books]. rewrite map_map.
  apply map_ext. intros b. destruct (Book_id b =? book_id); reflexivity.
Qed.

(** C3, amended.  For a stored book and a body that carries the four fields
    the schema requires ([summary] may be left out), the update answers the
    row read back from the store; that row differs from the one stored
    before only in the fields the body gives; rows with another key, the
    keys of the table, the users and the reviews are as they were. *)
Theorem put_book_changes_only_given_fields
  (db : Store) (book_id : Z) (body : BookFields) (old : Book) :
  books_primary_key db ->
  stored_book db book_id old ->
  has_required_fields body = true ->
  exists new db',
    main.put_book book_id body db = (Ok (Some new), db')
    /\ only_given_fields_changed body old new
    /\ crud.get_book book_id db' = (Ok (Some new), db')
    /\ (forall b, Book_id b <> book_id -> (In b (books db') <-> In b (books db)))
    /\ map Book_id (books db') = map Book_id (books db)
    /\ users db' = users db
    /\ reviews db' = reviews db.
Proof.
  intros Hpk Hold Hreq.
  destruct (validate_required body Hreq) as (book & Hval & Hdict).
  exists (crud.Book_assign body old), (books_updated book_id body db).
  split; [|split; [|split; [|split; [|split; [|split]]]]].
  - unfold main.put_book, bind, lift. rewrite Hval.
    rewrite (update_book_run _ _ _ _ Hpk Hold), Hdict. reflexivity.
  - apply Book_assign_only_given.
  - unfold crud.get_book.
    rewrite (select_books_by_id_updated _ _ _ _ Hpk Hold). reflexivity.
  - intros b Hne. apply books_updated_other_rows. exact Hne.
  - apply books_updated_keys.
  - reflexivity.
  - reflexivity.
Qed.

Lemma sample_primary_key : books_primary_key Sample.db0.
Proof.
  unfold books_primary_key; cbn.
  repeat constructor; cbn; intuition discriminate.
Defined.

Lemma sample_stores_dune : stored_book Sample.db0 1 Sample.dune.
Proof. split; [left|]; reflexivity. Defined.

Lemma put_book_retitled_witness :
  books_primary_key Sample.db0
  /\ stored_book Sample.db0 1 Sample.dune
  /\ has_required_fields Sample.retitled = true
  /\ exists new db',
       main.put_book 1 Sample.retitled Sample.db0 = (Ok (Some new), db')
       /\ only_given_fields_changed Sample.retitled Sample.dune new
       /\ crud.get_book 1 db' = (Ok (Some new), db')
       /\ (forall b, Book_id b <> 1 ->
                     (In b (books db') <-> In b (books Sample.db0)))
       /\ map Book_id (books db') = map Book_id (books Sample.db0)
       /\ users db' = users Sample.db0
       /\ reviews db' = reviews Sample.db0.
Proof.
  split; [exact sample_primary_key|].
  split; [exact sample_stores_dune|].
  split; [reflexivity|].
  exact (put_book_changes_only_given_fields
           Sample.db0 1 Sample.retitled Sample.dune
           sample_primary_key sample_stores_dune eq_refl).
Defined.

Example put_book_retitled_run :
  main.put_book 1 Sample.retitled Sample.db0
  = (Ok (Some (mkBook 1 "X" "Herbert" "SF" 1965
                      (Some "A desert planet and its spice."))),
     mkStore [Sample.alice]
             [mkBook 1 "X" "Herbert" "SF" 1965
                     (Some "A desert planet and its spice."); Sample.emma]
             [Sample.praise]).
Proof. reflexivity. Qed.

(** C3 as stated, at a body with [title] alone: book 1 is stored, yet the
    answer is no updated row.  The schema of the [book] parameter requires
    [author], [genre] and [year_published]; the request is turned away
    before the handler and the title stays "Dune". *)
Lemma put_book_title_only_is_rejected :
  stored_book Sample.db0 1 Sample.dune
  /\ main.put_book 1 Sample.title_only Sample.db0
     = (Raise (RequestValidationError ["author"; "genre"; "year_published"]),
        Sample.db0)
  /\ http_status (RequestValidationError ["author"; "genre"; "year_published"]) = 422.
Proof.
  split; [exact sample_stores_dune|]. split; reflexivity.
Qed.

(** ** Creating a book and reading it back *)

Lemma create_book_inv
  (llm : string -> result string) (db : Store) (book : BookCreate)
  (row : Book) (db' : Store) :
  main.create_book llm book db = (Ok row, db') ->
  exists response,
    main.generate llm (book_prompt book) = Ok response
    /\ row = mkBook (next_id (map Book_id (books db)))
                    (BookCreate_title book) (BookCreate_author book)
                    (BookCreate_genre book) (BookCreate_year_published book)
                    (Some response)
    /\ db' = mkStore (users db) (books db ++ [row]) (reviews db).
Proof.
  unfold main.create_book, try_except, bind, lift, ret, raise,
    crud.insert_book_data.
  fold (book_prompt book).
  destruct (main.generate llm (book_prompt book)) as [response|e]; cbn.
  - intros H. injection H as Hrow Hdb. exists response.
    split; [reflexivity|]. subst row. split; [reflexivity|].
    symmetry. exact Hdb.
  - discriminate.
Qed.

(** Whenever the model answers, the book is created. *)
Lemma create_book_succeeds
  (llm : string -> result string) (db : Store) (book : BookCreate)
  (response : string) :
  main.generate llm (book_prompt book) = Ok response ->
  exists row db', main.create_book llm book db = (Ok row, db').
Proof.
  intros Hgen.
  unfold main.create_book, try_except, bind, lift.
  fold (book_prompt book). rewrite Hgen. cbn. eauto.
Qed.

(** C5, amended.  A successful [create_book] answers a row whose title,
    author, genre and year are those of the input, and whose summary is a
    string, never null: the text the model gave for the book's prompt.  It
    is non-empty exactly when that text is. *)
Theorem create_book_echoes_input
  (llm : string -> result string) (db : Store) (book : BookCreate)
  (row : Book) (db' : Store) :
  main.create_book llm book db = (Ok row, db') ->
  Book_title row = BookCreate_title book
  /\ Book_author row = BookCreate_author book
  /\ Book_genre row = BookCreate_genre book
  /\ Book_year_published row = BookCreate_year_published book
  /\ exists response,
       main.generate llm (book_prompt book) = Ok response
       /\ Book_summary row = Some response.
Proof.
  intros Hrun.
  destruct (create_book_inv _ _ _ _ _ Hrun) as (response & Hgen & -> & _).
  cbn. repeat split. exists response. split; [exact Hgen|reflexivity].
Qed.

Lemma create_book_solaris_run :
  main.create_book Sample.terse Sample.solaris Sample.db0
  = (Ok Sample.solaris_row, Sample.solaris_db).
Proof. reflexivity. Defined.

Lemma create_book_echoes_input_witness :
  main.create_book Sample.terse Sample.solaris Sample.db0
  = (Ok Sample.solaris_row, Sample.solaris_db)
  /\ Book_title Sample.solaris_row = "Solaris"
  /\ Book_author Sample.solaris_row = "Lem"
  /\ Book_genre Sample.solaris_row = "SF"
  /\ Book_year_published Sample.solaris_row = 1961
  /\ exists response,
       main.generate Sample.terse (book_prompt Sample.solaris) = Ok response
       /\ Book_summary Sample.solaris_row = Some response.
Proof.
  split; [exact create_book_solaris_run|].
  exact (create_book_echoes_input
           Sample.terse Sample.db0 Sample.solaris
           Sample.solaris_row Sample.solaris_db create_book_solaris_run).
Defined.

(** C5 as stated, at a model that answers the empty text: the book is
    created and its summary is the empty string. *)
Lemma create_book_empty_summary :
  fst (main.create_book Sample.silent Sample.solaris Sample.db0)
  = Ok (mkBook 3 "Solaris" "Lem" "SF" 1961 (Some "")).
Proof. reflexivity. Qed.

Lemma select_new_book (db : Store) (row : Book) :
  Book_id row = next_id (map Book_id (books db)) ->
  select_books_by_id (Book_id row)
    (mkStore (users db) (books db ++ [row]) (reviews db))
  = [row].
Proof.
  intros Hid. unfold select_books_by_id; cbn [books].
  rewrite filter_app. cbn [filter]. rewrite Z.eqb_refl.
  assert (Hnone : ~ has_book db (Book_id row)).
  { intros (b & Hin & Hb). apply (next_id_fresh (map Book_id (books db))).
    rewrite <- Hid, <- Hb. apply in_map. exact Hin. }
  apply select_books_by_id_none in Hnone.
  unfold select_books_by_id in Hnone. rewrite Hnone. reflexivity.
Qed.

(** C7.  When [create_book] succeeds with a row of key X, [get_book] on X
    in the store it leaves answers that very row, and [read_book] answers
    its five schema fields: what the client was sent for the creation. *)
Theorem get_book_after_create_book
  (llm : string -> result string) (db : Store) (book : BookCreate)
  (row : Book) (db' : Store) :
  main.create_book llm book db = (Ok row, db') ->
  crud.get_book (Book_id row) db' = (Ok (Some row), db')
  /\ main.read_book (Book_id row) db' = (Ok (BookOut_of_row row), db').
Proof.
  intros Hrun.
  destruct (create_book_inv _ _ _ _ _ Hrun) as (response & _ & Hrow & ->).
  assert (Hid : Book_id row = next_id (map Book_id (books db)))
    by (rewrite Hrow; reflexivity).
  assert (Hget : crud.get_book (Book_id row)
                   (mkStore (users db) (books db ++ [row]) (reviews db))
                 = (Ok (Some row),
                    mkStore (users db) (books db ++ [row]) (reviews db))).
  { unfold crud.get_book. rewrite (select_new_book db row Hid). reflexivity. }
  split; [exact Hget|].
  unfold main.read_book, bind. rewrite Hget. reflexivity.
Qed.

Lemma get_book_after_create_book_witness :
  main.create_book Sample.terse Sample.solaris Sample.db0
  = (Ok Sample.solaris_row, Sample.solaris_db)
  /\ crud.get_book 3 Sample.solaris_db
     = (Ok (Some Sample.solaris_row), Sample.solaris_db)
  /\ main.read_book 3 Sample.solaris_db
     = (Ok (mkBookOut "Solaris" "Lem" "SF" 1961 (Some " A planet of sand. ")),
        Sample.solaris_db).
Proof.
  split; [exact create_book_solaris_run|].
  exact (get_book_after_create_book
           Sample.terse Sample.db0 Sample.solaris
           Sample.solaris_row Sample.solaris_db create_book_solaris_run).
Defined.

(** ** Deleting a book *)

Lemma books_deleted_no_book (foreign_keys : bool) (db : Store) (book_id : Z) :
  ~ has_book (books_deleted foreign_keys book_id db) book_id.
Proof.
  intros (b & Hin & Hid). unfold books_deleted in Hin; cbn [books] in Hin.
  apply filter_In in Hin. destruct Hin as [_ Hne].
  apply negb_true_iff, Z.eqb_neq in Hne. contradiction.
Qed.

Lemma delete_book_run (foreign_keys : bool) (db : Store) (book_id : Z) :
  books_primary_key db -> has_book db book_id ->
  main.delete_book foreign_keys book_id db
  = (Ok (main.mkResponse HTTP_204_NO_CONTENT),
     books_deleted foreign_keys book_id db).
Proof.
  intros Hpk (b & Hb).
  pose proof (select_books_by_id_unique db book_id b Hpk Hb) as E.
  unfold main.delete_book, crud.delete_book_data, crud.get_book,
    crud.execute_delete_books, bind, ret, raise.
  rewrite E. cbn [first hd_error scalar_one_or_none].
  rewrite E. reflexivity.
Qed.

Lemma delete_book_inv
  (foreign_keys : bool) (db : Store) (book_id : Z)
  (response : main.Response) (db' : Store) :
  main.delete_book foreign_keys book_id db = (Ok response, db') ->
  response = main.mkResponse HTTP_204_NO_CONTENT
  /\ db' = books_deleted foreign_keys book_id db.
Proof.
  unfold main.delete_book, crud.delete_book_data, crud.execute_delete_books,
    crud.get_book, bind, ret, raise.
  destruct (select_books_by_id book_id db) as [|b [|b' rest]] eqn:E;
    cbn [first hd_error]; try rewrite E; cbn [scalar_one_or_none];
    try discriminate.
  intros H. injection H as <- <-. split; reflexivity.
Qed.

(** C6, amended.  For a stored book, [delete_book] succeeds, the key being
    the primary key of its table, and answers 204 with no content.
    Whenever it succeeds, [read_book] on the same key answers [NotFound] in
    the store it leaves; rows of other books and the users are kept.  The
    handler deletes from the books table only.  On an engine that enforces
    the declared foreign key the reviews of the book go with it, and only
    those; on an engine that does not, the reviews table is left as it
    was. *)
Theorem delete_book_then_read_book
  (foreign_keys : bool) (db : Store) (book_id : Z) :
  has_book db book_id ->
  (books_primary_key db ->
   exists db',
     main.delete_book foreign_keys book_id db
     = (Ok (main.mkResponse 204), db'))
  /\ (forall response db',
        main.delete_book foreign_keys book_id db = (Ok response, db') ->
        main.Response_status_code response = 204
        /\ NotFound (fst (main.read_book book_id db'))
        /\ ~ has_book db' book_id
        /\ (forall b, Book_id b <> book_id ->
                      (In b (books db') <-> In b (books db)))
        /\ users db' = users db
        /\ (foreign_keys = true ->
            (forall r, In r (reviews db') -> Review_book_id r <> book_id)
            /\ (forall r, Review_book_id r <> book_id ->
                          (In r (reviews db') <-> In r (reviews db))))
        /\ (foreign_keys = false -> reviews db' = reviews db)).
Proof.
  intros Hb. split.
  - intros Hpk. exists (books_deleted foreign_keys book_id db).
    exact (delete_book_run foreign_keys db book_id Hpk Hb).
  - intros response db' Hrun.
    destruct (delete_book_inv _ _ _ _ _ Hrun) as [-> ->].
    split; [reflexivity|].
    split; [|split; [|split; [|split; [|split]]]].
    + unfold main.read_book, bind.
      rewrite (get_book_none _ _ (books_deleted_no_book foreign_keys db book_id)).
      exists "Book not found". reflexivity.
    + apply books_deleted_no_book.
    + intros b Hne. unfold books_deleted; cbn [books]. rewrite filter_In.
      apply Z.eqb_neq in Hne. rewrite Hne. cbn. tauto.
    + reflexivity.
    + intros ->. unfold books_deleted; cbn [reviews]. split.
      * intros r Hin. apply filter_In in Hin. destruct Hin as [_ Hne].
        apply negb_true_iff, Z.eqb_neq in Hne. exact Hne.
      * intros r Hne. rewrite filter_In.
        apply Z.eqb_neq in Hne. rewrite Hne. cbn. tauto.
    + intros ->. reflexivity.
Qed.

Lemma sample_has_dune : has_book Sample.db0 1.
Proof. exists Sample.dune. exact sample_stores_dune. Defined.

Lemma delete_book_dune_run :
  main.delete_book true 1 Sample.db0
  = (Ok (main.mkResponse 204), mkStore [Sample.alice] [Sample.emma] []).
Proof. reflexivity. Defined.

Lemma delete_book_dune_witness :
  has_book Sample.db0 1
  /\ main.delete_book true 1 Sample.db0
     = (Ok (main.mkResponse 204), mkStore [Sample.alice] [Sample.emma] [])
  /\ NotFound (fst (main.read_book 1 (mkStore [Sample.alice] [Sample.emma] [])))
  /\ forall r, In r (reviews (mkStore [Sample.alice] [Sample.emma] [])) ->
               Review_book_id r <> 1.
Proof.
  pose (post := proj2 (delete_book_then_read_book true Sample.db0 1
                         sample_has_dune)
                  _ _ delete_book_dune_run).
  split; [exact sample_has_dune|]. split; [exact delete_book_dune_run|].
  split.
  - exact (proj1 (proj2 post)).
  - exact (proj1 (proj1 (proj2 (proj2 (proj2 (proj2 (proj2 post))))) eq_refl)).
Defined.

(** C6 as stated, on an engine that does not enforce the foreign key: book
    1 is deleted with a 204 and reads as [NotFound] afterwards, yet its
    review is still in the reviews table, with [book_id] 1. *)
Lemma delete_book_leaves_review :
  has_book Sample.db0 1
  /\ main.delete_book false 1 Sample.db0
     = (Ok (main.mkResponse 204),
        mkStore [Sample.alice] [Sample.emma] [Sample.praise])
  /\ In Sample.praise
        (reviews (snd (main.delete_book false 1 Sample.db0)))
  /\ Review_book_id Sample.praise = 1.
Proof.
  split; [exact sample_has_dune|]. split; [reflexivity|].
  split; [left|]; reflexivity.
Qed.

(** ** Summaries on request *)

Lemma summarize_model_failed
  (llm : string -> result string) (content : string) (e : exn) :
  main.generate llm (summary_prompt content) = Raise e ->
  main.summarize_with_llamacpp llm content = sentinel.
Proof.
  intros Hgen. unfold main.summarize_with_llamacpp.
  fold (summary_prompt content). rewrite Hgen. reflexivity.
Qed.

(** C8.  When the model call fails, [summarize_with_llamacpp] answers the
    sentinel and raises nothing.  [generate_summary] fails exactly when the
    summary is the sentinel, and then with a 500; in every other case it
    answers the summary. *)
Theorem generate_summary_fails_on_sentinel
  (llm : string -> result string) (request : SummaryRequest) :
  ((exists e, main.generate llm
                (summary_prompt (SummaryRequest_book_content request)) = Raise e) ->
   main.summarize_with_llamacpp llm (SummaryRequest_book_content request)
   = sentinel)
  /\ ((exists e, main.generate_summary llm request = Raise e) <->
      main.summarize_with_llamacpp llm (SummaryRequest_book_content request)
      = sentinel)
  /\ (main.summarize_with_llamacpp llm (SummaryRequest_book_content request)
      = sentinel ->
      main.generate_summary llm request
      = Raise (HTTPException 500 "Failed to generate summary."))
  /\ (main.summarize_with_llamacpp llm (SummaryRequest_book_content request)
      <> sentinel ->
      main.generate_summary llm request
      = Ok (main.mkSummaryOut
              (main.summarize_with_llamacpp
                 llm (SummaryRequest_book_content request)))).
Proof.
  set (content := SummaryRequest_book_content request).
  assert (Hfail : main.summarize_with_llamacpp llm content = sentinel ->
                  main.generate_summary llm request
                  = Raise (HTTPException 500 "Failed to generate summary.")).
  { intros Hs. unfold main.generate_summary. fold content.
    rewrite Hs. reflexivity. }
  assert (Hok : main.summarize_with_llamacpp llm content <> sentinel ->
                main.generate_summary llm request
                = Ok (main.mkSummaryOut (main.summarize_with_llamacpp llm content))).
  { intros Hs. unfold main.generate_summary. fold content.
    apply String.eqb_neq in Hs. unfold sentinel in Hs. rewrite Hs.
    reflexivity. }
  split; [|split; [|split]].
  - intros [e He]. exact (summarize_model_failed llm content e He).
  - split.
    + intros [e He].
      destruct (string_dec (main.summarize_with_llamacpp llm content) sentinel)
        as [Hs|Hs]; [exact Hs|].
      rewrite (Hok Hs) in He. discriminate He.
    + intros Hs. eexists. exact (Hfail Hs).
  - exact Hfail.
  - exact Hok.
Qed.

Lemma generate_summary_model_down_witness :
  main.summarize_with_llamacpp Sample.down "Chapter one." = sentinel
  /\ main.generate_summary Sample.down (mkSummaryRequest "Chapter one.")
     = Raise (HTTPException 500 "Failed to generate summary.").
Proof.
  pose (thm := generate_summary_fails_on_sentinel
                 Sample.down (mkSummaryRequest "Chapter one.")).
  assert (Hs : main.summarize_with_llamacpp Sample.down "Chapter one." = sentinel).
  { apply (proj1 thm). eexists. reflexivity. }
  split; [exact Hs|].
  exact (proj1 (proj2 (proj2 thm)) Hs).
Defined.

Example generate_summary_terse_run :
  main.generate_summary Sample.terse (mkSummaryRequest "Chapter one.")
  = Ok (main.mkSummaryOut "A planet of sand.").
Proof. reflexivity. Qed.

(** A model that answers the sentinel's own words is reported as a failure
    too: the handler cannot tell the two apart. *)
Example generate_summary_echoed_sentinel :
  main.generate_summary (fun _ => Ok " Summary generation failed. ")
                        (mkSummaryRequest "Chapter one.")
  = Raise (HTTPException 500 "Failed to generate summary.").
Proof. reflexivity. Qed.

(** ** Reviews of a book *)

Lemma select_reviews_by_book_In (db : Store) (book_id : Z) (r : Review) :
  In r (select_reviews_by_book book_id db)
  <-> In r (reviews db) /\ Review_book_id r = book_id.
Proof.
  unfold select_reviews_by_book. rewrite filter_In, Z.eqb_eq. reflexivity.
Qed.

Lemma select_reviews_by_book_none (db : Store) (book_id : Z) :
  ~ has_review db book_id -> select_reviews_by_book book_id db = [].
Proof.
  intros Hno.
  destruct (select_reviews_by_book book_id db) as [|r rest] eqn:E;
    [reflexivity|].
  exfalso. apply Hno. exists r.
  apply select_reviews_by_book_In. rewrite E. left. reflexivity.
Qed.

Lemma read_reviews_for_book_cases (db : Store) (book_id : Z) :
  has_book db book_id ->
  main.read_reviews_for_book book_id db
  = match select_reviews_by_book book_id db with
    | [] => (Raise (HTTPException 404 "Review not found"), db)
    | rs => (Ok rs, db)
    end.
Proof.
  intros Hb. destruct (get_book_some _ _ Hb) as (b & Hget & _).
  unfold main.read_reviews_for_book, bind. rewrite Hget.
  unfold crud.get_review, ret.
  destruct (select_reviews_by_book book_id db); reflexivity.
Qed.

(** C9.  [read_reviews_for_book] answers [NotFound] when no book has the
    key, and [NotFound] again when the book is stored and has no review; it
    answers the book's reviews, at least one, in the remaining case.  It
    never answers the empty list. *)
Theorem read_reviews_not_found_or_nonempty (db : Store) (book_id : Z) :
  (~ has_book db book_id ->
   main.read_reviews_for_book book_id db
   = (Raise (HTTPException 404 "Book not found"), db))
  /\ (has_book db book_id -> ~ has_review db book_id ->
      main.read_reviews_for_book book_id db
      = (Raise (HTTPException 404 "Review not found"), db))
  /\ (has_book db book_id -> has_review db book_id ->
      exists rs,
        main.read_reviews_for_book book_id db = (Ok rs, db)
        /\ rs <> []
        /\ forall r, In r rs <-> In r (reviews db) /\ Review_book_id r = book_id)
  /\ (forall db', main.read_reviews_for_book book_id db <> (Ok [], db')).
Proof.
  split; [|split; [|split]].
  - intros Hno. unfold main.read_reviews_for_book, bind.
    rewrite (get_book_none _ _ Hno). reflexivity.
  - intros Hb Hno. rewrite (read_reviews_for_book_cases _ _ Hb).
    rewrite (select_reviews_by_book_none _ _ Hno). reflexivity.
  - intros Hb (r & Hr). rewrite (read_reviews_for_book_cases _ _ Hb).
    apply select_reviews_by_book_In in Hr.
    destruct (select_reviews_by_book book_id db) as [|r0 rest] eqn:E;
      [contradiction|].
    exists (r0 :: rest). split; [reflexivity|]. split; [discriminate|].
    intros x. rewrite <- E. apply select_reviews_by_book_In.
  - intros db' Hrun. unfold main.read_reviews_for_book, bind in Hrun.
    unfold crud.get_book, crud.get_review, ret, raise in Hrun.
    destruct (first (select_books_by_id book_id db)); [|discriminate Hrun].
    destruct (select_reviews_by_book book_id db); discriminate Hrun.
Qed.

Lemma read_reviews_sample_witness :
  main.read_reviews_for_book 999 Sample.db0
  = (Raise (HTTPException 404 "Book not found"), Sample.db0)
  /\ main.read_reviews_for_book 2 Sample.db0
     = (Raise (HTTPException 404 "Review not found"), Sample.db0)
  /\ exists rs,
       main.read_reviews_for_book 1 Sample.db0 = (Ok rs, Sample.db0)
       /\ rs <> []
       /\ forall r, In r rs <-> In r (reviews Sample.db0) /\ Review_book_id r = 1.
Proof.
  split; [|split].
  - apply (proj1 (read_reviews_not_found_or_nonempty Sample.db0 999)).
    intros (b & Hin & Hid). cbn in Hin.
    destruct Hin as [<-|[<-|[]]]; discriminate Hid.
  - apply (proj1 (proj2 (read_reviews_not_found_or_nonempty Sample.db0 2))).
    + exists Sample.emma. split; [right; left|]; reflexivity.
    + intros (r & Hin & Hid). cbn in Hin.
      destruct Hin as [<-|[]]; discriminate Hid.
  - apply (proj1 (proj2 (proj2 (read_reviews_not_found_or_nonempty Sample.db0 1)))).
    + exact sample_has_dune.
    + exists Sample.praise. split; [left|]; reflexivity.
Defined.

(** ** The book a review is filed under *)

Lemma existsb_book_id (db : Store) (book_id : Z) :
  existsb (fun b => Book_id b =? book_id) (books db) = true <-> has_book db book_id.
Proof.
  rewrite existsb_exists. unfold has_book.
  split; intros (b & Hin & Hid); exists b; split; try assumption;
    apply Z.eqb_eq; assumption.
Qed.

(** C10.  With the path's book stored, [create_review_for_book] looks no
    further at the path: whenever it succeeds, the row it appends carries
    the [book_id], [user_id], text and rating of the body.  Nothing in the
    handler or in [insert_review_data] looks the body's book up, so on an
    engine that does not enforce the foreign key every body succeeds, be
    its book the path's, another one, or none that is stored; on any engine
    a body whose book is stored succeeds. *)
Theorem create_review_files_under_body_book
  (foreign_keys : bool) (db : Store) (book_id : Z) (review : ReviewCreate) :
  has_book db book_id ->
  (forall r db',
     main.create_review_for_book foreign_keys book_id review db = (Ok r, db') ->
     Review_book_id r = ReviewCreate_book_id review
     /\ Review_user_id r = ReviewCreate_user_id review
     /\ Review_review_text r = ReviewCreate_review_text review
     /\ Review_rating r = ReviewCreate_rating review
     /\ db' = mkStore (users db) (books db) (reviews db ++ [r]))
  /\ (foreign_keys = false \/ has_book db (ReviewCreate_book_id review) ->
      exists r,
        main.create_review_for_book foreign_keys book_id review db
        = (Ok r, mkStore (users db) (books db) (reviews db ++ [r]))
        /\ Review_book_id r = ReviewCreate_book_id review).
Proof.
  intros Hpath. destruct (get_book_some _ _ Hpath) as (b & Hget & _).
  assert (Hrun : main.create_review_for_book foreign_keys book_id review db
                 = let (r, db') :=
                     crud.insert_review_data foreign_keys review db in
                   match r with
                   | Ok a => (Ok a, db')
                   | Raise e => (Raise e, db')
                   end).
  { unfold main.create_review_for_book, bind. rewrite Hget. reflexivity. }
  rewrite Hrun. unfold crud.insert_review_data.
  split.
  - intros r db'.
    destruct (foreign_keys
              && negb (existsb (fun b0 => Book_id b0 =? ReviewCreate_book_id review)
                               (books db))); [discriminate|].
    intros H. injection H as <- <-. cbn. repeat split.
  - intros Hcan.
    assert (Hguard : foreign_keys
                     && negb (existsb (fun b0 => Book_id b0
                                                 =? ReviewCreate_book_id review)
                                      (books db)) = false).
    { destruct Hcan as [->|Hbody]; [reflexivity|].
      apply existsb_book_id in Hbody. rewrite Hbody.
      apply andb_false_r. }
    rewrite Hguard. eexists. split; reflexivity.
Qed.

Lemma create_review_orphan_run :
  main.create_review_for_book false 1 Sample.lost Sample.db0
  = (Ok Sample.orphan_row,
     mkStore [Sample.alice] [Sample.dune; Sample.emma]
             [Sample.praise; Sample.orphan_row]).
Proof. reflexivity. Defined.

(** The path names book 1, the body book 999, which is not stored; on an
    engine without enforcement the review is stored under 999. *)
Lemma create_review_orphan_witness :
  has_book Sample.db0 1
  /\ ~ has_book Sample.db0 999
  /\ main.create_review_for_book false 1 Sample.lost Sample.db0
     = (Ok Sample.orphan_row,
        mkStore [Sample.alice] [Sample.dune; Sample.emma]
                [Sample.praise; Sample.orphan_row])
  /\ Review_book_id Sample.orphan_row = 999.
Proof.
  split; [exact sample_has_dune|]. split.
  - intros (b & Hin & Hid). cbn in Hin.
    destruct Hin as [<-|[<-|[]]]; discriminate Hid.
  - split; [exact create_review_orphan_run|].
    exact (proj1 (proj1 (create_review_files_under_body_book
                           false Sample.db0 1 Sample.lost sample_has_dune)
                        _ _ create_review_orphan_run)).
Defined.

Example create_review_misfiled_run :
  main.create_review_for_book true 1 Sample.misfiled Sample.db0
  = (Ok (mkReview 2 2 1 "Filed under Dune." 3%float),
     mkStore [Sample.alice] [Sample.dune; Sample.emma]
             [Sample.praise; mkReview 2 2 1 "Filed under Dune." 3%float]).
Proof. reflexivity. Qed.

Example create_review_enforced_run :
  main.create_review_for_book true 1 Sample.lost Sample.db0
  = (Raise IntegrityError, Sample.db0).
Proof. reflexivity. Qed.

(** ** What every store the service reaches keeps *)

Lemma register_store
  (hash_password : string -> result string) (user : UserCreate) (db : Store) :
  snd (auth.register hash_password user db) = db
  \/ (~ In (UserCreate_username user) (map User_username (users db))
      /\ exists u,
           User_username u = UserCreate_username user
           /\ snd (auth.register hash_password user db)
              = mkStore (users db ++ [u]) (books db) (reviews db)).
Proof.
  unfold auth.register, try_except, bind, ret, raise, lift, auth.insert_user.
  destruct (select_users_by_username (UserCreate_username user) db)
    as [|u [|u' rest]]; cbn; try (left; reflexivity).
  destruct (hash_password (UserCreate_password user)) as [hashed|e]; cbn;
    [|left; reflexivity].
  destruct (existsb (fun u => String.eqb (User_username u)
                                         (UserCreate_username user))
                    (users db)) eqn:Hex; cbn; [left; reflexivity|].
  right. split.
  - intros Hin. apply in_map_iff in Hin. destruct Hin as (u & Hname & Hin).
    assert (Htrue : existsb (fun u => String.eqb (User_username u)
                                                 (UserCreate_username user))
                            (users db) = true).
    { apply existsb_exists. exists u. split; [exact Hin|].
      apply String.eqb_eq. exact Hname. }
    rewrite Htrue in Hex. discriminate Hex.
  - eexists. split; [|reflexivity]. reflexivity.
Qed.

Lemma create_book_store
  (llm : string -> result string) (book : BookCreate) (db : Store) :
  snd (main.create_book llm book db) = db
  \/ exists row,
       Book_id row = next_id (map Book_id (books db))
       /\ snd (main.create_book llm book db)
          = mkStore (users db) (books db ++ [row]) (reviews db).
Proof.
  destruct (main.create_book llm book db) as [[row|e] db'] eqn:Hrun.
  - right. destruct (create_book_inv _ _ _ _ _ Hrun) as (response & _ & Hrow & Hdb).
    exists row. split; [rewrite Hrow; reflexivity|exact Hdb].
  - left. unfold main.create_book, try_except, bind, lift, ret, raise in Hrun.
    destruct (main.generate llm _); cbn in Hrun; [discriminate Hrun|].
    injection Hrun as _ Hdb. symmetry. exact Hdb.
Qed.

Lemma put_book_store (book_id : Z) (body : BookFields) (db : Store) :
  snd (main.put_book book_id body db) = db
  \/ exists fields,
       snd (main.put_book book_id body db) = books_updated book_id fields db.
Proof.
  unfold main.put_book, bind, lift.
  destruct (BookCreate_validate body) as [book|e]; [|left; reflexivity].
  unfold main.update_book, crud.update_book_data, crud.execute_update_books,
    crud.get_book, bind, ret, raise.
  destruct (select_books_by_id book_id db) as [|b rest] eqn:E;
    [left; reflexivity|].
  right. exists (BookCreate_dict_exclude_unset book).
  cbn [first hd_error]. rewrite E.
  cbn [List.length Z.of_nat Z.eqb]. reflexivity.
Qed.

Lemma delete_book_store (foreign_keys : bool) (book_id : Z) (db : Store) :
  snd (main.delete_book foreign_keys book_id db) = db
  \/ snd (main.delete_book foreign_keys book_id db)
     = books_deleted foreign_keys book_id db.
Proof.
  unfold main.delete_book, crud.delete_book_data, crud.execute_delete_books,
    crud.get_book, bind, ret, raise.
  destruct (select_books_by_id book_id db) as [|b [|b' rest]] eqn:E;
    cbn [first hd_error]; try rewrite E; cbn [scalar_one_or_none];
    [left|right|left]; reflexivity.
Qed.

Lemma create_review_store
  (foreign_keys : bool) (book_id : Z) (review : ReviewCreate) (db : Store) :
  snd (main.create_review_for_book foreign_keys book_id review db) = db
  \/ exists r,
       snd (main.create_review_for_book foreign_keys book_id review db)
       = mkStore (users db) (books db) (reviews db ++ [r]).
Proof.
  unfold main.create_review_for_book, crud.insert_review_data, crud.get_book,
    bind, ret, raise.
  destruct (first (select_books_by_id book_id db)); [|left; reflexivity].
  destruct (foreign_keys
            && negb (existsb (fun b => Book_id b =? ReviewCreate_book_id review)
                             (books db))); [left; reflexivity|].
  right. eexists. reflexivity.
Qed.

Lemma has_book_keys (db : Store) (book_id : Z) :
  has_book db book_id <-> In book_id (map Book_id (books db)).
Proof.
  unfold has_book. rewrite in_map_iff.
  split; intros (b & H1 & H2); exists b; split; assumption.
Qed.

Lemma NoDup_snoc {A : Type} (l : list A) (x : A) :
  NoDup l -> ~ In x l -> NoDup (l ++ [x]).
Proof.
  induction l as [|a l IH]; cbn; intros Hnd Hx.
  - constructor; [intros []|constructor].
  - inversion Hnd as [|? ? Ha Hl]; subst. constructor.
    + rewrite in_app_iff. intros [Hin|[->|[]]]; [exact (Ha Hin)|].
      apply Hx. left. reflexivity.
    + apply IH; [exact Hl|]. intros Hin. apply Hx. right. exact Hin.
Qed.

(** Dropping rows keeps the keys of the remaining ones distinct. *)
Lemma primary_key_filter (keep : Book -> bool) (rows : list Book) :
  NoDup (map Book_id rows) -> NoDup (map Book_id (filter keep rows)).
Proof.
  intros Hnd. induction rows as [|row rows IH]; cbn; [constructor|].
  cbn in Hnd. apply NoDup_cons_iff in Hnd. destruct Hnd as [Hrow Hrows].
  destruct (keep row); cbn; [|exact (IH Hrows)].
  apply NoDup_cons; [|exact (IH Hrows)].
  intros Hin. apply Hrow. apply in_map_iff in Hin.
  destruct Hin as (x & Hkey & Hx). apply filter_In in Hx.
  rewrite <- Hkey. apply in_map. exact (proj1 Hx).
Qed.

Section Preservation.

Variable db : Store.
Hypothesis Hok : store_ok db.

Lemma store_ok_new_user (u : User) :
  ~ In (User_username u) (map User_username (users db)) ->
  store_ok (mkStore (users db ++ [u]) (books db) (reviews db)).
Proof.
  intros Hnew. destruct Hok as [Hpk Hun]. constructor.
  - exact Hpk.
  - unfold usernames_unique; cbn [users]. rewrite map_app.
    apply NoDup_snoc; assumption.
Qed.

Lemma store_ok_new_book (row : Book) :
  Book_id row = next_id (map Book_id (books db)) ->
  store_ok (mkStore (users db) (books db ++ [row]) (reviews db)).
Proof.
  intros Hid. destruct Hok as [Hpk Hun]. constructor.
  - unfold books_primary_key; cbn [books]. rewrite map_app.
    apply NoDup_snoc; [exact Hpk|]. rewrite Hid. apply next_id_fresh.
  - exact Hun.
Qed.

Lemma store_ok_updated (book_id : Z) (fields : BookFields) :
  store_ok (books_updated book_id fields db).
Proof.
  destruct Hok as [Hpk Hun]. constructor.
  - unfold books_primary_key. rewrite books_updated_keys. exact Hpk.
  - exact Hun.
Qed.

Lemma store_ok_deleted (foreign_keys : bool) (book_id : Z) :
  store_ok (books_deleted foreign_keys book_id db).
Proof.
  destruct Hok as [Hpk Hun]. constructor.
  - apply primary_key_filter. exact Hpk.
  - exact Hun.
Qed.

Lemma store_ok_new_review (r : Review) :
  store_ok (mkStore (users db) (books db) (reviews db ++ [r])).
Proof.
  destruct Hok as [Hpk Hun]. constructor; assumption.
Qed.

End Preservation.

(** Every request leaves the two constraints as it found them. *)
Lemma serve_store_ok
  (hash_password : string -> result string) (llm : string -> result string)
  (foreign_keys : bool) (q : request) (db : Store) :
  store_ok db -> store_ok (serve hash_password llm foreign_keys q db).
Proof.
  intros Hok. destruct q as [user|book|book_id body|book_id|book_id review];
    cbn [serve].
  - destruct (register_store hash_password user db)
      as [->|(Hnew & u & Hname & ->)]; [exact Hok|].
    apply store_ok_new_user; [exact Hok|]. rewrite Hname. exact Hnew.
  - destruct (create_book_store llm book db) as [->|(row & Hid & ->)];
      [exact Hok|].
    apply store_ok_new_book; assumption.
  - destruct (put_book_store book_id body db) as [->|(fields & ->)];
      [exact Hok|].
    apply store_ok_updated. exact Hok.
  - destruct (delete_book_store foreign_keys book_id db) as [->| ->];
      [exact Hok|].
    apply store_ok_deleted. exact Hok.
  - destruct (create_review_store foreign_keys book_id review db)
      as [->|(r & ->)]; [exact Hok|].
    apply store_ok_new_review. exact Hok.
Qed.

(** X22.  Whatever the engine does with the foreign key, every store
    reached from the empty one through [register], [create_book], the book
    update, [delete_book] and [create_review_for_book] has distinct book
    keys and distinct usernames: [register] looks the name up before it
    writes, a new book takes a key no row has, and updates and deletions add
    no row. *)
Theorem reachable_store_ok
  (hash_password : string -> result string) (llm : string -> result string)
  (foreign_keys : bool) (db : Store) :
  reachable hash_password llm foreign_keys db ->
  books_primary_key db /\ usernames_unique db.
Proof.
  intros Hreach.
  assert (Hok : store_ok db).
  { induction Hreach as [|q db Hreach IH].
    - constructor; constructor.
    - apply serve_store_ok. exact IH. }
  destruct Hok as [Hpk Hun]. split; assumption.
Qed.

Example sample_store_reachable :
  reachable Sample.hash Sample.terse false
    (serve Sample.hash Sample.terse false
       (Register (mkUserCreate "alice" "secret")) empty_store).
Proof. apply reachable_serve, reachable_empty. Qed.

(** ** Registration and the basic-auth gate *)

Lemma select_users_by_username_none (db : Store) (username : string) :
  ~ has_username db username -> select_users_by_username username db = [].
Proof.
  intros Hno.
  destruct (select_users_by_username username db) as [|u rest] eqn:E;
    [reflexivity|].
  exfalso. apply Hno. exists u.
  assert (Hu : In u (select_users_by_username username db))
    by (rewrite E; left; reflexivity).
  unfold select_users_by_username in Hu. apply filter_In in Hu.
  destruct Hu as [Hin Hname]. apply String.eqb_eq in Hname. split; assumption.
Qed.

Lemma existsb_username (db : Store) (username : string) :
  existsb (fun u => String.eqb (User_username u) username) (users db) = true
  <-> has_username db username.
Proof.
  rewrite existsb_exists. unfold has_username.
  split; intros (u & Hin & Hname); exists u; split; try assumption;
    apply String.eqb_eq; assumption.
Qed.

Lemma register_duplicate_run
  (hash_password : string -> result string) (db : Store) (user : UserCreate) :
  has_username db (UserCreate_username user) ->
  auth.register hash_password user db
  = (Raise (HTTPException 500 "Internal server error"), db).
Proof.
  intros Hdup.
  destruct (select_users_by_username_some _ _ Hdup) as (u & rest & E).
  unfold auth.register, try_except, bind. rewrite E.
  destruct rest; reflexivity.
Qed.

Lemma register_new_run
  (hash_password : string -> result string) (db : Store) (user : UserCreate)
  (hashed : string) :
  ~ has_username db (UserCreate_username user) ->
  hash_password (UserCreate_password user) = Ok hashed ->
  auth.register hash_password user db
  = (Ok (registered_row hashed user db),
     mkStore (users db ++ [registered_row hashed user db])
             (books db) (reviews db)).
Proof.
  intros Hnew Hhash.
  unfold auth.register, try_except, bind, ret, lift, auth.insert_user.
  rewrite (select_users_by_username_none _ _ Hnew). cbn [scalar_one_or_none].
  rewrite Hhash.
  destruct (existsb (fun u => String.eqb (User_username u)
                                         (UserCreate_username user))
                    (users db)) eqn:Hex.
  - exfalso. apply Hnew, existsb_username. exact Hex.
  - reflexivity.
Qed.

Lemma register_hash_raises
  (hash_password : string -> result string) (db : Store) (user : UserCreate)
  (e : exn) :
  ~ has_username db (UserCreate_username user) ->
  hash_password (UserCreate_password user) = Raise e ->
  auth.register hash_password user db
  = (Raise (HTTPException 500 "Internal server error"), db).
Proof.
  intros Hnew Hhash.
  unfold auth.register, try_except, bind, ret, lift, raise.
  rewrite (select_users_by_username_none _ _ Hnew). cbn [scalar_one_or_none].
  rewrite Hhash. reflexivity.
Qed.

Lemma has_username_dec (db : Store) (username : string) :
  has_username db username \/ ~ has_username db username.
Proof.
  destruct (existsb (fun u => String.eqb (User_username u) username) (users db))
    eqn:Hex.
  - left. apply existsb_username. exact Hex.
  - right. intros H. apply existsb_username in H. rewrite H in Hex.
    discriminate Hex.
Qed.

(** X1.  Registering a username no stored user has, with a password the
    hashing library accepts, answers the new row and appends it, and nothing
    else, to the users: its key is new, its name is the one asked for, and
    what it keeps of the password is the hash the library gave. *)
Theorem register_new_username
  (hash_password : string -> result string) (db : Store) (user : UserCreate)
  (hashed : string) :
  ~ has_username db (UserCreate_username user) ->
  hash_password (UserCreate_password user) = Ok hashed ->
  exists u,
    auth.register hash_password user db
    = (Ok u, mkStore (users db ++ [u]) (books db) (reviews db))
    /\ User_username u = UserCreate_username user
    /\ User_hashed_password u = hashed
    /\ ~ In (User_id u) (map User_id (users db)).
Proof.
  intros Hnew Hhash. exists (registered_row hashed user db).
  split; [exact (register_new_run _ _ _ _ Hnew Hhash)|].
  split; [reflexivity|]. split; [reflexivity|].
  apply next_id_fresh.
Qed.

Lemma sample_has_no_bob : ~ has_username Sample.db0 "bob".
Proof.
  intros (u & Hin & Hname). cbn in Hin.
  destruct Hin as [<-|[]]. discriminate Hname.
Defined.

Lemma register_bob_witness :
  ~ has_username Sample.db0 "bob"
  /\ Sample.hash "pw" = Ok "$2b$12$pw"
  /\ exists u,
       auth.register Sample.hash Sample.bob Sample.db0
       = (Ok u, mkStore (users Sample.db0 ++ [u]) (books Sample.db0)
                        (reviews Sample.db0))
       /\ User_username u = "bob"
       /\ User_hashed_password u = "$2b$12$pw"
       /\ ~ In (User_id u) (map User_id (users Sample.db0)).
Proof.
  split; [exact sample_has_no_bob|]. split; [reflexivity|].
  exact (register_new_username Sample.hash Sample.db0 Sample.bob "$2b$12$pw"
           sample_has_no_bob eq_refl).
Defined.

(** X2.  [register] succeeds exactly when no stored user has the username
    and the hashing library accepts the password.  Whenever it fails, for a
    duplicate or for a password the library raises on, the answer is the
    500 "Internal server error" of its [except] clause, never a 400, and
    the store is the one it was given. *)
Theorem register_succeeds_iff_new
  (hash_password : string -> result string) (db : Store) (user : UserCreate) :
  ((exists u db', auth.register hash_password user db = (Ok u, db'))
   <-> (~ has_username db (UserCreate_username user)
        /\ exists hashed, hash_password (UserCreate_password user) = Ok hashed))
  /\ (forall e db',
        auth.register hash_password user db = (Raise e, db') ->
        e = HTTPException 500 "Internal server error" /\ db' = db).
Proof.
  split.
  - split.
    + intros (u & db' & Hrun).
      destruct (has_username_dec db (UserCreate_username user)) as [Hdup|Hnew].
      * rewrite (register_duplicate_run _ _ _ Hdup) in Hrun. discriminate Hrun.
      * split; [exact Hnew|].
        destruct (hash_password (UserCreate_password user)) as [hashed|e] eqn:Hh.
        -- exists hashed. reflexivity.
        -- rewrite (register_hash_raises _ _ _ _ Hnew Hh) in Hrun.
           discriminate Hrun.
    + intros (Hnew & hashed & Hh).
      rewrite (register_new_run _ _ _ _ Hnew Hh). eauto.
  - intros e db' Hrun.
    destruct (has_username_dec db (UserCreate_username user)) as [Hdup|Hnew].
    + rewrite (register_duplicate_run _ _ _ Hdup) in Hrun.
      injection Hrun as <- <-. split; reflexivity.
    + destruct (hash_password (UserCreate_password user)) as [hashed|e0] eqn:Hh.
      * rewrite (register_new_run _ _ _ _ Hnew Hh) in Hrun. discriminate Hrun.
      * rewrite (register_hash_raises _ _ _ _ Hnew Hh) in Hrun.
        injection Hrun as <- <-. split; reflexivity.
Qed.

(** A new username with a NUL in the password: the library raises inside
    the [try] and the answer is the 500. *)
Example register_nul_password :
  auth.register Sample.hash (mkUserCreate "carol" ("a" ++ Sample.nul ++ "b"))
                Sample.db0
  = (Raise (HTTPException 500 "Internal server error"), Sample.db0).
Proof. reflexivity. Qed.

Lemma register_inv
  (hash_password : string -> result string) (db : Store) (user : UserCreate)
  (u : User) (db' : Store) :
  auth.register hash_password user db = (Ok u, db') ->
  ~ has_username db (UserCreate_username user)
  /\ hash_password (UserCreate_password user) = Ok (User_hashed_password u)
  /\ User_username u = UserCreate_username user
  /\ db' = mkStore (users db ++ [u]) (books db) (reviews db).
Proof.
  intros Hrun.
  destruct (has_username_dec db (UserCreate_username user)) as [Hdup|Hnew].
  - rewrite (register_duplicate_run _ _ _ Hdup) in Hrun. discriminate Hrun.
  - destruct (hash_password (UserCreate_password user)) as [hashed|e] eqn:Hh.
    + rewrite (register_new_run _ _ _ _ Hnew Hh) in Hrun.
      injection Hrun as <- <-. repeat split. exact Hnew.
    + rewrite (register_hash_raises _ _ _ _ Hnew Hh) in Hrun.
      discriminate Hrun.
Qed.

(** X3.  After a registration that succeeded, registering the same username
    again, with any password, answers 500 and writes nothing: the users
    table keeps its one row of that name. *)
Theorem register_same_username_again
  (hash_password : string -> result string) (db : Store) (user : UserCreate)
  (u : User) (db' : Store) :
  auth.register hash_password user db = (Ok u, db') ->
  forall password' : string,
    auth.register hash_password
                  (mkUserCreate (UserCreate_username user) password') db'
    = (Raise (HTTPException 500 "Internal server error"), db').
Proof.
  intros Hrun password'.
  destruct (register_inv _ _ _ _ _ Hrun) as (_ & _ & Hname & ->).
  apply register_duplicate_run. cbn [UserCreate_username].
  exists u. split.
  - cbn [users]. apply in_or_app. right. left. reflexivity.
  - exact Hname.
Qed.

Lemma register_bob_run :
  auth.register Sample.hash Sample.bob Sample.db0
  = (Ok Sample.bob_row, Sample.db_with_bob).
Proof. reflexivity. Defined.

Lemma register_bob_again_witness :
  auth.register Sample.hash Sample.bob Sample.db0
  = (Ok Sample.bob_row, Sample.db_with_bob)
  /\ auth.register Sample.hash (mkUserCreate "bob" "another") Sample.db_with_bob
     = (Raise (HTTPException 500 "Internal server error"), Sample.db_with_bob).
Proof.
  split; [exact register_bob_run|].
  exact (register_same_username_again
           Sample.hash Sample.db0 Sample.bob Sample.bob_row Sample.db_with_bob
           register_bob_run "another").
Defined.

Lemma select_users_by_username_In (db : Store) (username : string) (u : User) :
  In u (select_users_by_username username db)
  <-> In u (users db) /\ User_username u = username.
Proof.
  unfold select_users_by_username. rewrite filter_In, String.eqb_eq.
  reflexivity.
Qed.

(** X4.  [get_current_user] lets nobody in on a wrong password or another
    user's name: when it returns a user, that user is stored, bears the
    username of the credentials, and the password of the credentials passes
    [verify_password] against the hash stored for that user. *)
Theorem get_current_user_sound
  (verify_password : string -> string -> result bool)
  (credentials : auth_gate.HTTPBasicCredentials) (db : Store) (u : User) :
  auth_gate.get_current_user verify_password credentials db
  = auth_gate.Returns u ->
  In u (users db)
  /\ User_username u = auth_gate.credentials_username credentials
  /\ verify_password (auth_gate.credentials_password credentials)
                     (User_hashed_password u) = Ok true.
Proof.
  unfold auth_gate.get_current_user.
  destruct (select_users_by_username
              (auth_gate.credentials_username credentials) db)
    as [|x [|y rest]] eqn:E; cbn [scalar_one_or_none]; try discriminate.
  destruct (verify_password (auth_gate.credentials_password credentials)
                            (User_hashed_password x)) as [[|]|e] eqn:Hv;
    cbn [negb]; try discriminate.
  intros H. injection H as <-.
  assert (Hx : In x (select_users_by_username
                       (auth_gate.credentials_username credentials) db))
    by (rewrite E; left; reflexivity).
  apply select_users_by_username_In in Hx. destruct Hx as [Hin Hname].
  repeat split; assumption.
Qed.

Lemma get_current_user_bob_run :
  auth_gate.get_current_user
    Sample.verify (auth_gate.mkHTTPBasicCredentials "bob" "pw") Sample.db_with_bob
  = auth_gate.Returns Sample.bob_row.
Proof. reflexivity. Defined.

Lemma get_current_user_sound_witness :
  auth_gate.get_current_user
    Sample.verify (auth_gate.mkHTTPBasicCredentials "bob" "pw") Sample.db_with_bob
  = auth_gate.Returns Sample.bob_row
  /\ In Sample.bob_row (users Sample.db_with_bob)
  /\ User_username Sample.bob_row = "bob"
  /\ Sample.verify "pw" (User_hashed_password Sample.bob_row) = Ok true.
Proof.
  split; [exact get_current_user_bob_run|].
  exact (get_current_user_sound
           Sample.verify (auth_gate.mkHTTPBasicCredentials "bob" "pw")
           Sample.db_with_bob Sample.bob_row get_current_user_bob_run).
Defined.

(** Under the uniqueness of usernames the query by name has one row. *)
Lemma filter_by_username_unique (l : list User) (u : User) :
  NoDup (map User_username l) -> In u l ->
  filter (fun x => String.eqb (User_username x) (User_username u)) l = [u].
Proof.
  induction l as [|a l IH]; cbn [filter map In]; intros Hnd Hin;
    [contradiction|].
  apply NoDup_cons_iff in Hnd. destruct Hnd as [Ha Hl].
  destruct Hin as [->|Hin].
  - rewrite String.eqb_refl. f_equal.
    destruct (filter (fun x => String.eqb (User_username x) (User_username u)) l)
      as [|c rest] eqn:E; [reflexivity|].
    exfalso. apply Ha.
    assert (Hc : In c (filter (fun x => String.eqb (User_username x)
                                                   (User_username u)) l))
      by (rewrite E; left; reflexivity).
    apply filter_In in Hc. destruct Hc as [Hc Hname].
    apply String.eqb_eq in Hname. rewrite <- Hname. apply in_map. exact Hc.
  - destruct (String.eqb (User_username a) (User_username u)) eqn:Hau.
    + exfalso. apply Ha. apply String.eqb_eq in Hau. rewrite Hau.
      apply in_map. exact Hin.
    + apply IH; assumption.
Qed.

Lemma get_current_user_one_row
  (verify_password : string -> string -> result bool)
  (credentials : auth_gate.HTTPBasicCredentials) (db : Store) (u : User) :
  select_users_by_username (auth_gate.credentials_username credentials) db = [u] ->
  auth_gate.get_current_user verify_password credentials db
  = gate_answer u (verify_password (auth_gate.credentials_password credentials)
                                   (User_hashed_password u)).
Proof.
  intros E. unfold auth_gate.get_current_user. rewrite E.
  cbn [scalar_one_or_none].
  destruct (verify_password (auth_gate.credentials_password credentials)
                            (User_hashed_password u)) as [[|]|e]; reflexivity.
Qed.

(** X5.  With usernames unique, [get_current_user] goes by the library's
    answer for the stored hash alone: for the stored user of that name it
    returns the user when the library says the password verifies, answers
    401 with a [WWW-Authenticate: Basic] challenge when the library says it
    does not, and ends in the library's own exception when it raises; for a
    name nobody has it answers the same 401 without asking the library. *)
Theorem get_current_user_decides
  (verify_password : string -> string -> result bool)
  (credentials : auth_gate.HTTPBasicCredentials) (db : Store) :
  usernames_unique db ->
  (forall u,
     In u (users db) ->
     User_username u = auth_gate.credentials_username credentials ->
     auth_gate.get_current_user verify_password credentials db
     = match verify_password (auth_gate.credentials_password credentials)
                             (User_hashed_password u) with
       | Ok true => auth_gate.Returns u
       | Ok false => unauthorized
       | Raise e => auth_gate.Raises e
       end)
  /\ (~ has_username db (auth_gate.credentials_username credentials) ->
      auth_gate.get_current_user verify_password credentials db = unauthorized).
Proof.
  intros Huniq. split.
  - intros u Hin Hname.
    apply (get_current_user_one_row verify_password credentials db u).
    unfold select_users_by_username. rewrite <- Hname.
    exact (filter_by_username_unique _ _ Huniq Hin).
  - intros Hno. unfold auth_gate.get_current_user.
    rewrite (select_users_by_username_none _ _ Hno). reflexivity.
Qed.

Lemma sample_usernames_unique : usernames_unique Sample.db_with_bob.
Proof.
  unfold usernames_unique; cbn.
  repeat constructor; cbn; intuition discriminate.
Defined.

Lemma get_current_user_decides_witness :
  usernames_unique Sample.db_with_bob
  /\ auth_gate.get_current_user
       Sample.verify (auth_gate.mkHTTPBasicCredentials "bob" "guess")
       Sample.db_with_bob
     = unauthorized
  /\ auth_gate.get_current_user
       Sample.verify
       (auth_gate.mkHTTPBasicCredentials "bob" ("p" ++ Sample.nul ++ "w"))
       Sample.db_with_bob
     = auth_gate.Raises (ValueError "NULL byte found in password").
Proof.
  split; [exact sample_usernames_unique|]. split.
  - exact (proj1 (get_current_user_decides
                    Sample.verify (auth_gate.mkHTTPBasicCredentials "bob" "guess")
                    Sample.db_with_bob sample_usernames_unique)
                 Sample.bob_row (or_intror (or_introl eq_refl)) eq_refl).
  - exact (proj1 (get_current_user_decides
                    Sample.verify
                    (auth_gate.mkHTTPBasicCredentials
                       "bob" ("p" ++ Sample.nul ++ "w"))
                    Sample.db_with_bob sample_usernames_unique)
                 Sample.bob_row (or_intror (or_introl eq_refl)) eq_refl).
Defined.

(** X6.  Register, then log in.  After a registration that succeeded, the
    stored hash is the one the library gave for the registered password,
    and the gate, asked with the same username and any password, goes by
    the library's answer for that hash: the registered user when it says
    the password verifies, 401 when it says it does not, the library's
    exception when it raises. *)
Theorem get_current_user_after_register
  (hash_password : string -> result string)
  (verify_password : string -> string -> result bool)
  (db : Store) (user : UserCreate) (u : User) (db' : Store) :
  auth.register hash_password user db = (Ok u, db') ->
  hash_password (UserCreate_password user) = Ok (User_hashed_password u)
  /\ forall password' : string,
       auth_gate.get_current_user
         verify_password
         (auth_gate.mkHTTPBasicCredentials (UserCreate_username user) password')
         db'
       = match verify_password password' (User_hashed_password u) with
         | Ok true => auth_gate.Returns u
         | Ok false => unauthorized
         | Raise e => auth_gate.Raises e
         end.
Proof.
  intros Hrun.
  destruct (register_inv _ _ _ _ _ Hrun) as (Hnew & Hhash & Hname & ->).
  split; [exact Hhash|]. intros password'.
  apply (get_current_user_one_row
           verify_password
           (auth_gate.mkHTTPBasicCredentials (UserCreate_username user) password')).
  cbn [auth_gate.credentials_username].
  unfold select_users_by_username; cbn [users]. rewrite filter_app.
  pose proof (select_users_by_username_none _ _ Hnew) as Hnone.
  unfold select_users_by_username in Hnone. rewrite Hnone.
  cbn [filter app]. rewrite Hname, String.eqb_refl. reflexivity.
Qed.

Lemma get_current_user_after_register_witness :
  auth.register Sample.hash Sample.bob Sample.db0
  = (Ok Sample.bob_row, Sample.db_with_bob)
  /\ auth_gate.get_current_user
       Sample.verify (auth_gate.mkHTTPBasicCredentials "bob" "pw")
       Sample.db_with_bob
     = auth_gate.Returns Sample.bob_row
  /\ auth_gate.get_current_user
       Sample.verify (auth_gate.mkHTTPBasicCredentials "bob" "guess")
       Sample.db_with_bob
     = unauthorized
  /\ auth_gate.get_current_user
       Sample.verify
       (auth_gate.mkHTTPBasicCredentials "bob" ("p" ++ Sample.nul ++ "w"))
       Sample.db_with_bob
     = auth_gate.Raises (ValueError "NULL byte found in password").
Proof.
  pose (thm := proj2 (get_current_user_after_register
                        Sample.hash Sample.verify Sample.db0 Sample.bob
                        Sample.bob_row Sample.db_with_bob register_bob_run)).
  split; [exact register_bob_run|]. split; [exact (thm "pw")|].
  split; [exact (thm "guess")|].
  exact (thm ("p" ++ Sample.nul ++ "w")%string).
Defined.

(** ** Creating books: the model's part *)

(** X7.  When the model call fails, [create_book] answers 500 with the
    text of the failure as its detail and writes nothing: no book is stored
    without a summary. *)
Theorem create_book_model_failure
  (llm : string -> result string) (db : Store) (book : BookCreate) (e : exn) :
  main.generate llm (book_prompt book) = Raise e ->
  main.create_book llm book db = (Raise (HTTPException 500 (str_exn e)), db).
Proof.
  intros Hgen. unfold main.create_book, try_except, bind, lift, raise.
  fold (book_prompt book). rewrite Hgen. reflexivity.
Qed.

Lemma create_book_model_failure_witness :
  main.generate Sample.down (book_prompt Sample.solaris)
  = Raise (ModelError "model file not loaded")
  /\ main.create_book Sample.down Sample.solaris Sample.db0
     = (Raise (HTTPException 500 "model file not loaded"), Sample.db0).
Proof.
  split; [reflexivity|].
  exact (create_book_model_failure
           Sample.down Sample.db0 Sample.solaris
           (ModelError "model file not loaded") eq_refl).
Defined.

(** X8.  A summary sent by the caller is discarded: two requests that agree
    on title, author, genre and year create the same book in the same
    store, whatever each says of [summary]. *)
Theorem create_book_ignores_given_summary
  (llm : string -> result string) (db : Store) (b1 b2 : BookCreate) :
  same_required_fields b1 b2 ->
  main.create_book llm b1 db = main.create_book llm b2 db.
Proof.
  intros (Ht & Ha & Hg & Hy).
  destruct b1 as [t1 a1 g1 y1 s1], b2 as [t2 a2 g2 y2 s2].
  cbn in Ht, Ha, Hg, Hy. subst t2 a2 g2 y2.
  unfold main.create_book, try_except, bind, lift, ret,
    crud.insert_book_data, BookCreate_copy_summary.
  cbn. reflexivity.
Qed.

Lemma create_book_ignores_given_summary_witness :
  same_required_fields Sample.solaris_blurbed Sample.solaris
  /\ main.create_book Sample.terse Sample.solaris_blurbed Sample.db0
     = main.create_book Sample.terse Sample.solaris Sample.db0.
Proof.
  assert (H : same_required_fields Sample.solaris_blurbed Sample.solaris)
    by (repeat split).
  split; [exact H|].
  exact (create_book_ignores_given_summary
           Sample.terse Sample.db0 Sample.solaris_blurbed Sample.solaris H).
Defined.

Lemma select_books_by_id_appended (db : Store) (row : Book) (k : Z) :
  k <> Book_id row ->
  select_books_by_id k (mkStore (users db) (books db ++ [row]) (reviews db))
  = select_books_by_id k db.
Proof.
  intros Hne. unfold select_books_by_id; cbn [books].
  rewrite filter_app. cbn [filter].
  assert (Hk : (Book_id row =? k) = false) by (apply Z.eqb_neq; congruence).
  rewrite Hk. apply app_nil_r.
Qed.

(** X9.  A created book is one more row and nothing else: after a
    successful [create_book] the listing is the old listing followed by the
    new row, the new key was in use by no book, every other key reads as it
    did before, and users and reviews are untouched. *)
Theorem create_book_appends_one_row
  (llm : string -> result string) (db : Store) (book : BookCreate)
  (row : Book) (db' : Store) :
  main.create_book llm book db = (Ok row, db') ->
  (forall skip limit : Z,
     main.read_books skip limit db' = (Ok (books db ++ [row]), db'))
  /\ ~ has_book db (Book_id row)
  /\ (forall k, k <> Book_id row ->
                fst (main.read_book k db') = fst (main.read_book k db))
  /\ users db' = users db
  /\ reviews db' = reviews db.
Proof.
  intros Hrun.
  destruct (create_book_inv _ _ _ _ _ Hrun) as (response & _ & Hrow & ->).
  assert (Hid : Book_id row = next_id (map Book_id (books db)))
    by (rewrite Hrow; reflexivity).
  split; [intros; reflexivity|]. split.
  - intros Hb. apply has_book_keys in Hb. rewrite Hid in Hb.
    exact (next_id_fresh _ Hb).
  - split; [|split; reflexivity].
    intros k Hne. unfold main.read_book, crud.get_book, bind.
    rewrite (select_books_by_id_appended db row k Hne).
    destruct (first (select_books_by_id k db)); reflexivity.
Qed.

Lemma create_book_appends_one_row_witness :
  main.create_book Sample.terse Sample.solaris Sample.db0
  = (Ok Sample.solaris_row, Sample.solaris_db)
  /\ main.read_books 0 100 Sample.solaris_db
     = (Ok (books Sample.db0 ++ [Sample.solaris_row]), Sample.solaris_db)
  /\ ~ has_book Sample.db0 3.
Proof.
  pose (thm := create_book_appends_one_row
                 Sample.terse Sample.db0 Sample.solaris
                 Sample.solaris_row Sample.solaris_db create_book_solaris_run).
  split; [exact create_book_solaris_run|]. split.
  - exact (proj1 thm 0 100).
  - exact (proj1 (proj2 thm)).
Defined.

(** ** Requests that fail *)

Lemma Store_eta (db : Store) : mkStore (users db) (books db) (reviews db) = db.
Proof. destruct db; reflexivity. Qed.

Lemma map_if_none {A : Type} (p : A -> bool) (f : A -> A) (l : list A) :
  filter p l = [] -> map (fun x => if p x then f x else x) l = l.
Proof.
  induction l as [|a l IH]; cbn [filter map]; intros Hnone; [reflexivity|].
  destruct (p a); [discriminate Hnone|]. rewrite (IH Hnone). reflexivity.
Qed.

Lemma books_updated_unknown (db : Store) (book_id : Z) (fields : BookFields) :
  select_books_by_id book_id db = [] -> books_updated book_id fields db = db.
Proof.
  intros Hnone. unfold books_updated.
  rewrite (map_if_none (fun b => Book_id b =? book_id)
                       (crud.Book_assign fields) (books db) Hnone).
  apply Store_eta.
Qed.

Lemma put_book_inv
  (db : Store) (book_id : Z) (body : BookFields)
  (answer : option Book) (db' : Store) :
  main.put_book book_id body db = (Ok answer, db') ->
  has_required_fields body = true
  /\ select_books_by_id book_id db <> []
  /\ db' = books_updated book_id body db
  /\ answer = first (select_books_by_id book_id db').
Proof.
  unfold main.put_book, bind, lift.
  destruct (has_required_fields body) eqn:Hreq.
  - destruct (validate_required body Hreq) as (book & Hval & Hdict).
    rewrite Hval.
    unfold main.update_book, crud.update_book_data, crud.execute_update_books,
      crud.get_book, bind, ret, raise.
    destruct (select_books_by_id book_id db) as [|b rest] eqn:E;
      cbn [first hd_error]; [discriminate|].
    rewrite E. cbn [List.length Z.of_nat Z.eqb]. rewrite Hdict.
    fold (books_updated book_id body db).
    intros H. injection H as <- <-.
    split; [reflexivity|]. split; [discriminate|]. split; reflexivity.
  - destruct body as [[t|] [a|] [g|] [y|] s]; cbn in Hreq |- *;
      discriminate.
Qed.

(** X10.  No half-done writes.  Whenever [register], [create_book],
    [put_book], [delete_book] or [create_review_for_book] ends in an
    exception, the store is the one the request found. *)
Theorem failed_request_writes_nothing
  (hash_password : string -> result string) (llm : string -> result string)
  (foreign_keys : bool) (db : Store) (e : exn) (db' : Store) :
  (forall user, auth.register hash_password user db = (Raise e, db') -> db' = db)
  /\ (forall book, main.create_book llm book db = (Raise e, db') -> db' = db)
  /\ (forall book_id body,
        main.put_book book_id body db = (Raise e, db') -> db' = db)
  /\ (forall book_id,
        main.delete_book foreign_keys book_id db = (Raise e, db') -> db' = db)
  /\ (forall book_id review,
        main.create_review_for_book foreign_keys book_id review db
        = (Raise e, db') ->
        db' = db).
Proof.
  split; [|split; [|split; [|split]]].
  - intros user Hrun.
    destruct (has_username_dec db (UserCreate_username user)) as [Hdup|Hnew].
    + rewrite (register_duplicate_run _ _ _ Hdup) in Hrun.
      injection Hrun as _ <-. reflexivity.
    + destruct (hash_password (UserCreate_password user)) as [hashed|e0] eqn:Hh.
      * rewrite (register_new_run _ _ _ _ Hnew Hh) in Hrun. discriminate Hrun.
      * rewrite (register_hash_raises _ _ _ _ Hnew Hh) in Hrun.
        injection Hrun as _ <-. reflexivity.
  - intros book. unfold main.create_book, try_except, bind, lift, ret, raise.
    destruct (main.generate llm _); cbn; [discriminate|].
    intros H. injection H as _ <-. reflexivity.
  - intros book_id body.
    unfold main.put_book, bind, lift.
    destruct (BookCreate_validate body) as [book|e0];
      [|intros H; injection H as _ <-; reflexivity].
    unfold main.update_book, crud.update_book_data, crud.execute_update_books,
      crud.get_book, bind, ret, raise.
    destruct (select_books_by_id book_id db) as [|b rest] eqn:E;
      cbn [first hd_error].
    + intros H. injection H as _ <-. reflexivity.
    + rewrite E. cbn [List.length Z.of_nat Z.eqb]. discriminate.
  - intros book_id.
    unfold main.delete_book, crud.delete_book_data, crud.execute_delete_books,
      crud.get_book, bind, ret, raise.
    destruct (select_books_by_id book_id db) as [|b [|b' rest]] eqn:E;
      cbn [first hd_error]; try rewrite E; cbn [scalar_one_or_none];
      try discriminate; intros H; injection H as _ <-; reflexivity.
  - intros book_id review.
    unfold main.create_review_for_book, crud.insert_review_data, crud.get_book,
      bind, ret, raise.
    destruct (first (select_books_by_id book_id db));
      [|intros H; injection H as _ <-; reflexivity].
    destruct (foreign_keys && negb (existsb _ (books db))); [|discriminate].
    intros H. injection H as _ <-. reflexivity.
Qed.

Lemma failed_request_writes_nothing_witness :
  main.create_review_for_book true 1 Sample.lost Sample.db0
  = (Raise IntegrityError, Sample.db0)
  /\ Sample.db0 = Sample.db0.
Proof.
  split; [reflexivity|].
  exact (proj2 (proj2 (proj2 (proj2
           (failed_request_writes_nothing
              Sample.hash Sample.terse true Sample.db0 IntegrityError
              Sample.db0))))
           1 Sample.lost eq_refl).
Defined.

(** X11.  What [put_book] refuses.  A body that lacks one of the four
    required fields is answered 422, whatever the key, with the missing
    fields named; a complete body for a key no book has is answered 404.
    Neither writes. *)
Theorem put_book_refusals (db : Store) (book_id : Z) (body : BookFields) :
  (has_required_fields body = false ->
   exists missing,
     missing <> []
     /\ main.put_book book_id body db
        = (Raise (RequestValidationError missing), db)
     /\ http_status (RequestValidationError missing) = 422)
  /\ (has_required_fields body = true -> ~ has_book db book_id ->
      main.put_book book_id body db
      = (Raise (HTTPException 404 "Book not found"), db)).
Proof.
  split.
  - intros Hreq. unfold main.put_book, bind, lift.
    destruct body as [[t|] [a|] [g|] [y|] s]; cbn in Hreq |- *;
      try discriminate Hreq;
      eexists; (split; [|split; reflexivity]); discriminate.
  - intros Hreq Hno.
    destruct (validate_required body Hreq) as (book & Hval & _).
    unfold main.put_book, bind, lift. rewrite Hval.
    unfold main.update_book, bind. rewrite (get_book_none _ _ Hno).
    reflexivity.
Qed.

Lemma sample_has_no_999 : ~ has_book Sample.db0 999.
Proof.
  intros (b & Hin & Hid). cbn in Hin.
  destruct Hin as [<-|[<-|[]]]; discriminate Hid.
Defined.

Lemma put_book_refusals_witness :
  has_required_fields Sample.retitled = true
  /\ ~ has_book Sample.db0 999
  /\ main.put_book 999 Sample.retitled Sample.db0
     = (Raise (HTTPException 404 "Book not found"), Sample.db0).
Proof.
  split; [reflexivity|]. split; [exact sample_has_no_999|].
  exact (proj2 (put_book_refusals Sample.db0 999 Sample.retitled)
               eq_refl sample_has_no_999).
Defined.

(** X12.  The guards inside the store operations.  Called for a key no book
    has, [update_book_data] and [delete_book_data] answer 404 on their own,
    without the handler's check before them, and leave the store as it
    was. *)
Theorem crud_guards_unknown_key
  (foreign_keys : bool) (db : Store) (book_id : Z) (book : BookCreate) :
  ~ has_book db book_id ->
  crud.update_book_data book_id book db
  = (Raise (HTTPException 404 "Book not found"), db)
  /\ crud.delete_book_data foreign_keys book_id db
     = (Raise (HTTPException 404 "Book not found"), db).
Proof.
  intros Hno. pose proof (select_books_by_id_none _ _ Hno) as Hnone. split.
  - unfold crud.update_book_data, crud.execute_update_books, bind, raise.
    rewrite Hnone. cbn [List.length Z.of_nat Z.eqb].
    fold (books_updated book_id (BookCreate_dict_exclude_unset book) db).
    rewrite (books_updated_unknown _ _ _ Hnone). reflexivity.
  - unfold crud.delete_book_data, bind, raise. rewrite Hnone. reflexivity.
Qed.

Lemma crud_guards_unknown_key_witness :
  ~ has_book Sample.db0 999
  /\ crud.update_book_data 999 Sample.solaris Sample.db0
     = (Raise (HTTPException 404 "Book not found"), Sample.db0)
  /\ crud.delete_book_data false 999 Sample.db0
     = (Raise (HTTPException 404 "Book not found"), Sample.db0).
Proof.
  split; [exact sample_has_no_999|].
  exact (crud_guards_unknown_key false Sample.db0 999 Sample.solaris
           sample_has_no_999).
Defined.

(** ** Updates, deletions and reviews together *)

Lemma Book_assign_twice (fields : BookFields) (b : Book) :
  crud.Book_assign fields (crud.Book_assign fields b) = crud.Book_assign fields b.
Proof.
  unfold crud.Book_assign; cbn.
  destruct (body_title fields), (body_author fields), (body_genre fields),
    (body_year_published fields), (body_summary fields); reflexivity.
Qed.

Lemma books_updated_twice (db : Store) (book_id : Z) (fields : BookFields) :
  books_updated book_id fields (books_updated book_id fields db)
  = books_updated book_id fields db.
Proof.
  unfold books_updated; cbn [users books reviews]. f_equal.
  rewrite map_map. apply map_ext. intros b.
  destruct (Book_id b =? book_id) eqn:Hb.
  - cbn [crud.Book_assign Book_id]. rewrite Hb. apply Book_assign_twice.
  - rewrite Hb. reflexivity.
Qed.

Lemma select_books_by_id_after_update
  (db : Store) (book_id k : Z) (fields : BookFields) :
  select_books_by_id k (books_updated book_id fields db)
  = map (fun b => if Book_id b =? book_id then crud.Book_assign fields b else b)
        (select_books_by_id k db).
Proof.
  unfold select_books_by_id, books_updated; cbn [books].
  apply filter_map_same_key.
  intros b. destruct (Book_id b =? book_id); reflexivity.
Qed.

(** X13.  [put_book] is idempotent: sending again a body that was accepted
    gives the same answer and leaves the store as the first time left it. *)
Theorem put_book_idempotent
  (db : Store) (book_id : Z) (body : BookFields)
  (answer : option Book) (db' : Store) :
  main.put_book book_id body db = (Ok answer, db') ->
  main.put_book book_id body db' = (Ok answer, db').
Proof.
  intros Hrun.
  destruct (put_book_inv _ _ _ _ _ Hrun) as (Hreq & Hsome & -> & ->).
  destruct (validate_required body Hreq) as (book & Hval & Hdict).
  pose proof (select_books_by_id_after_update db book_id book_id body) as Hsel.
  pose proof (books_updated_twice db book_id body) as Htwice.
  remember (books_updated book_id body db) as db1 eqn:Hdb1.
  destruct (select_books_by_id book_id db) as [|b rest];
    [contradiction Hsome; reflexivity|].
  cbn [map] in Hsel.
  unfold main.put_book, bind, lift. rewrite Hval.
  unfold main.update_book, crud.update_book_data, crud.execute_update_books,
    crud.get_book, bind, ret, raise.
  rewrite Hdict, Hsel. cbn [first hd_error].
  rewrite Hsel. cbn [List.length Z.of_nat Z.eqb].
  fold (books_updated book_id body db1). rewrite Htwice, Hsel.
  reflexivity.
Qed.

Lemma put_book_idempotent_witness :
  main.put_book 1 Sample.retitled Sample.db0
  = (Ok (Some (mkBook 1 "X" "Herbert" "SF" 1965
                      (Some "A desert planet and its spice."))),
     mkStore [Sample.alice]
             [mkBook 1 "X" "Herbert" "SF" 1965
                     (Some "A desert planet and its spice."); Sample.emma]
             [Sample.praise])
  /\ main.put_book 1 Sample.retitled
       (mkStore [Sample.alice]
                [mkBook 1 "X" "Herbert" "SF" 1965
                        (Some "A desert planet and its spice."); Sample.emma]
                [Sample.praise])
     = (Ok (Some (mkBook 1 "X" "Herbert" "SF" 1965
                         (Some "A desert planet and its spice."))),
        mkStore [Sample.alice]
                [mkBook 1 "X" "Herbert" "SF" 1965
                        (Some "A desert planet and its spice."); Sample.emma]
                [Sample.praise]).
Proof.
  split; [reflexivity|].
  exact (put_book_idempotent Sample.db0 1 Sample.retitled _ _ eq_refl).
Defined.

Lemma read_reviews_for_book_same
  (db db' : Store) (k : Z) :
  select_reviews_by_book k db' = select_reviews_by_book k db ->
  (select_books_by_id k db' = [] <-> select_books_by_id k db = []) ->
  main.read_reviews_for_book k db' = (fst (main.read_reviews_for_book k db), db').
Proof.
  intros Hrev Hbooks.
  unfold main.read_reviews_for_book, crud.get_book, bind.
  destruct (select_books_by_id k db') as [|b' rest'];
    destruct (select_books_by_id k db) as [|b rest]; cbn [first hd_error fst].
  - reflexivity.
  - exfalso. assert (H : b :: rest = []) by (apply Hbooks; reflexivity).
    discriminate H.
  - exfalso. assert (H : b' :: rest' = []) by (apply Hbooks; reflexivity).
    discriminate H.
  - unfold crud.get_review, ret. rewrite Hrev.
    destruct (select_reviews_by_book k db); reflexivity.
Qed.

(** X14.  Updating a book touches no review: after a successful
    [put_book], [read_reviews_for_book] answers for every key what it
    answered before. *)
Theorem put_book_keeps_reviews
  (db : Store) (book_id : Z) (body : BookFields)
  (answer : option Book) (db' : Store) :
  main.put_book book_id body db = (Ok answer, db') ->
  forall k : Z,
    main.read_reviews_for_book k db'
    = (fst (main.read_reviews_for_book k db), db').
Proof.
  intros Hrun k.
  destruct (put_book_inv _ _ _ _ _ Hrun) as (_ & _ & -> & _).
  apply read_reviews_for_book_same; [reflexivity|].
  rewrite select_books_by_id_after_update.
  destruct (select_books_by_id k db); cbn [map]; split; intros H;
    try reflexivity; discriminate H.
Qed.

Lemma put_book_keeps_reviews_witness :
  main.put_book 1 Sample.retitled Sample.db0
  = (Ok (Some (mkBook 1 "X" "Herbert" "SF" 1965
                      (Some "A desert planet and its spice."))),
     mkStore [Sample.alice]
             [mkBook 1 "X" "Herbert" "SF" 1965
                     (Some "A desert planet and its spice."); Sample.emma]
             [Sample.praise])
  /\ main.read_reviews_for_book 1
       (mkStore [Sample.alice]
                [mkBook 1 "X" "Herbert" "SF" 1965
                        (Some "A desert planet and its spice."); Sample.emma]
                [Sample.praise])
     = (fst (main.read_reviews_for_book 1 Sample.db0),
        mkStore [Sample.alice]
                [mkBook 1 "X" "Herbert" "SF" 1965
                        (Some "A desert planet and its spice."); Sample.emma]
                [Sample.praise]).
Proof.
  split; [reflexivity|].
  exact (put_book_keeps_reviews Sample.db0 1 Sample.retitled _ _ eq_refl 1).
Defined.

Lemma filter_within {A : Type} (p q : A -> bool) (l : list A) :
  (forall x, p x = true -> q x = true) ->
  filter p (filter q l) = filter p l.
Proof.
  intros Hpq. induction l as [|a l IH]; cbn [filter]; [reflexivity|].
  destruct (p a) eqn:Hp.
  - rewrite (Hpq a Hp). cbn [filter]. rewrite Hp, IH. reflexivity.
  - destruct (q a); cbn [filter]; [rewrite Hp|]; exact IH.
Qed.

Lemma select_books_by_id_after_delete
  (foreign_keys : bool) (db : Store) (book_id k : Z) :
  k <> book_id ->
  select_books_by_id k (books_deleted foreign_keys book_id db)
  = select_books_by_id k db.
Proof.
  intros Hne. unfold select_books_by_id, books_deleted; cbn [books].
  apply filter_within. intros b Hb. apply Z.eqb_eq in Hb.
  apply negb_true_iff, Z.eqb_neq. congruence.
Qed.

Lemma select_reviews_by_book_after_delete
  (foreign_keys : bool) (db : Store) (book_id k : Z) :
  k <> book_id ->
  select_reviews_by_book k (books_deleted foreign_keys book_id db)
  = select_reviews_by_book k db.
Proof.
  intros Hne. unfold select_reviews_by_book, books_deleted; cbn [reviews].
  destruct foreign_keys; [|reflexivity].
  apply filter_within. intros r Hr. apply Z.eqb_eq in Hr.
  apply negb_true_iff, Z.eqb_neq. congruence.
Qed.

(** X15.  A deleted key is gone for every handler.  After [delete_book]
    succeeded on a key, deleting it again, listing its reviews, updating it
    with a complete body and filing a review under it all answer 404 "Book
    not found" and write nothing. *)
Theorem deleted_book_is_gone
  (foreign_keys : bool) (db : Store) (book_id : Z)
  (response : main.Response) (db' : Store) :
  main.delete_book foreign_keys book_id db = (Ok response, db') ->
  main.delete_book foreign_keys book_id db'
  = (Raise (HTTPException 404 "Book not found"), db')
  /\ main.read_reviews_for_book book_id db'
     = (Raise (HTTPException 404 "Book not found"), db')
  /\ (forall body,
        has_required_fields body = true ->
        main.put_book book_id body db'
        = (Raise (HTTPException 404 "Book not found"), db'))
  /\ (forall review,
        main.create_review_for_book foreign_keys book_id review db'
        = (Raise (HTTPException 404 "Book not found"), db')).
Proof.
  intros Hrun. destruct (delete_book_inv _ _ _ _ _ Hrun) as [_ ->].
  pose proof (get_book_none _ _ (books_deleted_no_book foreign_keys db book_id))
    as Hget.
  split; [|split; [|split]].
  - unfold main.delete_book, bind. rewrite Hget. reflexivity.
  - unfold main.read_reviews_for_book, bind. rewrite Hget. reflexivity.
  - intros body Hreq.
    destruct (validate_required body Hreq) as (book & Hval & _).
    unfold main.put_book, bind, lift. rewrite Hval.
    unfold main.update_book, bind. rewrite Hget. reflexivity.
  - intros review. unfold main.create_review_for_book, bind.
    rewrite Hget. reflexivity.
Qed.

Lemma deleted_book_is_gone_witness :
  main.delete_book true 1 Sample.db0
  = (Ok (main.mkResponse 204), mkStore [Sample.alice] [Sample.emma] [])
  /\ main.delete_book true 1 (mkStore [Sample.alice] [Sample.emma] [])
     = (Raise (HTTPException 404 "Book not found"),
        mkStore [Sample.alice] [Sample.emma] [])
  /\ main.read_reviews_for_book 1 (mkStore [Sample.alice] [Sample.emma] [])
     = (Raise (HTTPException 404 "Book not found"),
        mkStore [Sample.alice] [Sample.emma] []).
Proof.
  pose (thm := deleted_book_is_gone true Sample.db0 1 _ _ delete_book_dune_run).
  split; [exact delete_book_dune_run|]. split.
  - exact (proj1 thm).
  - exact (proj1 (proj2 thm)).
Defined.

(** X16.  Deleting one book leaves the others as they were: after a
    successful [delete_book], [read_book] and [read_reviews_for_book] answer
    for every other key what they answered before. *)
Theorem delete_book_keeps_other_books
  (foreign_keys : bool) (db : Store) (book_id : Z)
  (response : main.Response) (db' : Store) :
  main.delete_book foreign_keys book_id db = (Ok response, db') ->
  forall k : Z,
    k <> book_id ->
    main.read_book k db' = (fst (main.read_book k db), db')
    /\ main.read_reviews_for_book k db'
       = (fst (main.read_reviews_for_book k db), db').
Proof.
  intros Hrun k Hne. destruct (delete_book_inv _ _ _ _ _ Hrun) as [_ ->].
  split.
  - unfold main.read_book, crud.get_book, bind.
    rewrite (select_books_by_id_after_delete foreign_keys db book_id k Hne).
    destruct (first (select_books_by_id k db)); reflexivity.
  - apply read_reviews_for_book_same.
    + exact (select_reviews_by_book_after_delete foreign_keys db book_id k Hne).
    + rewrite (select_books_by_id_after_delete foreign_keys db book_id k Hne).
      reflexivity.
Qed.

Lemma delete_book_keeps_other_books_witness :
  main.delete_book true 1 Sample.db0
  = (Ok (main.mkResponse 204), mkStore [Sample.alice] [Sample.emma] [])
  /\ main.read_book 2 (mkStore [Sample.alice] [Sample.emma] [])
     = (fst (main.read_book 2 Sample.db0),
        mkStore [Sample.alice] [Sample.emma] [])
  /\ main.read_reviews_for_book 2 (mkStore [Sample.alice] [Sample.emma] [])
     = (fst (main.read_reviews_for_book 2 Sample.db0),
        mkStore [Sample.alice] [Sample.emma] []).
Proof.
  split; [exact delete_book_dune_run|].
  apply (delete_book_keeps_other_books true Sample.db0 1 _ _
           delete_book_dune_run 2).
  discriminate.
Defined.

Lemma create_review_inv
  (foreign_keys : bool) (db : Store) (book_id : Z) (review : ReviewCreate)
  (r : Review) (db' : Store) :
  main.create_review_for_book foreign_keys book_id review db = (Ok r, db') ->
  Review_book_id r = ReviewCreate_book_id review
  /\ db' = mkStore (users db) (books db) (reviews db ++ [r]).
Proof.
  unfold main.create_review_for_book, crud.insert_review_data, crud.get_book,
    bind, ret, raise.
  destruct (first (select_books_by_id book_id db)); [|discriminate].
  destruct (foreign_keys
            && negb (existsb (fun b => Book_id b =? ReviewCreate_book_id review)
                             (books db))); [discriminate|].
  intros H. injection H as <- <-. split; reflexivity.
Qed.

(** X17.  Where an accepted review shows up.  After a successful
    [create_review_for_book], [read_reviews_for_book] on the body's
    [book_id] answers the reviews that book had, in their order, followed
    by the new one, when that book is stored; when it is not, the review is
    stored all the same and the listing of its [book_id] answers 404 "Book
    not found".  For every other key, the path's included when it differs,
    the answer is what it was, and the books table is untouched. *)
Theorem create_review_then_read_reviews
  (foreign_keys : bool) (db : Store) (book_id : Z) (review : ReviewCreate)
  (r : Review) (db' : Store) :
  main.create_review_for_book foreign_keys book_id review db = (Ok r, db') ->
  (has_book db (ReviewCreate_book_id review) ->
   main.read_reviews_for_book (ReviewCreate_book_id review) db'
   = (Ok (select_reviews_by_book (ReviewCreate_book_id review) db ++ [r]), db'))
  /\ (~ has_book db (ReviewCreate_book_id review) ->
      In r (reviews db')
      /\ main.read_reviews_for_book (ReviewCreate_book_id review) db'
         = (Raise (HTTPException 404 "Book not found"), db'))
  /\ (forall k : Z,
        k <> ReviewCreate_book_id review ->
        main.read_reviews_for_book k db'
        = (fst (main.read_reviews_for_book k db), db'))
  /\ books db' = books db.
Proof.
  intros Hrun.
  destruct (create_review_inv _ _ _ _ _ _ Hrun) as (Hr & ->).
  split; [|split; [|split; [|reflexivity]]].
  - intros Hbook.
    destruct (select_books_by_id_some _ _ Hbook) as (b & rest & E).
    unfold main.read_reviews_for_book, crud.get_book, crud.get_review, bind, ret.
    unfold select_books_by_id in E |- *; cbn [books]. rewrite E.
    cbn [first hd_error].
    unfold select_reviews_by_book; cbn [reviews]. rewrite filter_app.
    cbn [filter]. rewrite Hr, Z.eqb_refl.
    destruct (filter (fun r0 => Review_book_id r0 =? ReviewCreate_book_id review)
                     (reviews db)); reflexivity.
  - intros Hno. split.
    + cbn [reviews]. apply in_or_app. right. left. reflexivity.
    + assert (Hno' : ~ has_book (mkStore (users db) (books db) (reviews db ++ [r]))
                                (ReviewCreate_book_id review)) by exact Hno.
      unfold main.read_reviews_for_book, bind.
      rewrite (get_book_none _ _ Hno'). reflexivity.
  - intros k Hne. apply read_reviews_for_book_same.
    + unfold select_reviews_by_book; cbn [reviews]. rewrite filter_app.
      cbn [filter].
      assert (Hk : (Review_book_id r =? k) = false)
        by (apply Z.eqb_neq; congruence).
      rewrite Hk. apply app_nil_r.
    + reflexivity.
Qed.

Lemma create_review_second_opinion_run :
  main.create_review_for_book false 1 Sample.second_opinion Sample.db0
  = (Ok Sample.second_opinion_row,
     mkStore [Sample.alice] [Sample.dune; Sample.emma]
             [Sample.praise; Sample.second_opinion_row]).
Proof. reflexivity. Defined.

Lemma create_review_then_read_reviews_witness :
  main.create_review_for_book false 1 Sample.second_opinion Sample.db0
  = (Ok Sample.second_opinion_row,
     mkStore [Sample.alice] [Sample.dune; Sample.emma]
             [Sample.praise; Sample.second_opinion_row])
  /\ main.read_reviews_for_book 1
       (mkStore [Sample.alice] [Sample.dune; Sample.emma]
                [Sample.praise; Sample.second_opinion_row])
     = (Ok [Sample.praise; Sample.second_opinion_row],
        mkStore [Sample.alice] [Sample.dune; Sample.emma]
                [Sample.praise; Sample.second_opinion_row]).
Proof.
  split; [exact create_review_second_opinion_run|].
  exact (proj1 (create_review_then_read_reviews
                  false Sample.db0 1 Sample.second_opinion _ _
                  create_review_second_opinion_run)
               sample_has_dune).
Defined.

(** The review of book 999 filed under the path of book 1, on an engine
    without enforcement: stored, and not to be listed. *)
Example read_reviews_of_orphan :
  main.read_reviews_for_book 999
    (snd (main.create_review_for_book false 1 Sample.lost Sample.db0))
  = (Raise (HTTPException 404 "Book not found"),
     mkStore [Sample.alice] [Sample.dune; Sample.emma]
             [Sample.praise; Sample.orphan_row]).
Proof. reflexivity. Qed.

(** ** Reading one book *)

(** X18.  [read_book] and the summary route answer alike: 404 "Book not
    found" for a key no book has and, the key being the primary key, the
    title, author, genre, year and summary of the stored row for a key that
    is there.  Neither carries the row's id, and neither writes. *)
Theorem read_book_answers_stored_fields (db : Store) (book_id : Z) :
  main_rest.read_reviews_for_book book_id db = main.read_book book_id db
  /\ (~ has_book db book_id ->
      main.read_book book_id db
      = (Raise (HTTPException 404 "Book not found"), db))
  /\ (forall b,
        books_primary_key db -> stored_book db book_id b ->
        main.read_book book_id db
        = (Ok (mkBookOut (Book_title b) (Book_author b) (Book_genre b)
                         (Book_year_published b) (Book_summary b)), db)).
Proof.
  split; [reflexivity|]. split.
  - intros Hno. unfold main.read_book, bind.
    rewrite (get_book_none _ _ Hno). reflexivity.
  - intros b Hpk Hb. unfold main.read_book, crud.get_book, bind.
    rewrite (select_books_by_id_unique _ _ _ Hpk Hb). reflexivity.
Qed.

Lemma read_book_answers_stored_fields_witness :
  main.read_book 1 Sample.db0
  = (Ok (mkBookOut "Dune" "Herbert" "SF" 1965
                   (Some "A desert planet and its spice.")), Sample.db0).
Proof.
  exact (proj2 (proj2 (read_book_answers_stored_fields Sample.db0 1))
               Sample.dune sample_primary_key sample_stores_dune).
Defined.

(** ** Recommendations *)

(** X19.  [recommend_books] fails exactly when the model call fails, and
    then with a 500 whose detail is the text of the failure; otherwise it
    answers the model's text as it came, neither trimmed nor compared with
    any sentinel. *)
Theorem recommend_books_passes_model_answer
  (llm : string -> result string) (prompt : string) :
  (forall text,
     main.generate llm (recommend_prompt prompt) = Ok text ->
     main_rest.recommend_books llm prompt
     = Ok (main_rest.mkRecommendation text))
  /\ (forall e,
        main.generate llm (recommend_prompt prompt) = Raise e ->
        main_rest.recommend_books llm prompt
        = Raise (HTTPException 500 (str_exn e)))
  /\ ((exists e, main_rest.recommend_books llm prompt = Raise e)
      <-> exists e, main.generate llm (recommend_prompt prompt) = Raise e).
Proof.
  unfold main_rest.recommend_books. fold (recommend_prompt prompt).
  destruct (main.generate llm (recommend_prompt prompt)) as [text|e].
  - split; [|split].
    + intros t H. injection H as <-. reflexivity.
    + intros e H. discriminate H.
    + split; intros [e H]; discriminate H.
  - split; [|split].
    + intros t H. discriminate H.
    + intros e' H. injection H as <-. reflexivity.
    + split; intros _; eexists; reflexivity.
Qed.

Lemma recommend_books_passes_model_answer_witness :
  main_rest.recommend_books Sample.terse "sand"
  = Ok (main_rest.mkRecommendation " A planet of sand. ")
  /\ main_rest.recommend_books Sample.down "sand"
     = Raise (HTTPException 500 "model file not loaded").
Proof.
  split.
  - exact (proj1 (recommend_books_passes_model_answer Sample.terse "sand")
                 " A planet of sand. " eq_refl).
  - exact (proj1 (proj2 (recommend_books_passes_model_answer Sample.down "sand"))
                 (ModelError "model file not loaded") eq_refl).
Defined.

(** ** Trimmed summaries *)

Lemma lstrip_head (s : string) : starts_with_space (lstrip s) = false.
Proof.
  induction s as [|c s IH]; cbn [lstrip]; [reflexivity|].
  destruct (is_space c) eqn:Hc; [exact IH|].
  cbn [starts_with_space]. exact Hc.
Qed.

Lemma rstrip_cons (c : ascii) (s : string) :
  is_space c = false -> rstrip (String c s) = String c (rstrip s).
Proof.
  intros Hc. cbn [rstrip]. destruct (rstrip s); [rewrite Hc|]; reflexivity.
Qed.

Lemma rstrip_tail (s : string) : ends_with_space (rstrip s) = false.
Proof.
  induction s as [|c s IH]; cbn [rstrip]; [reflexivity|].
  destruct (rstrip s) as [|d t] eqn:E.
  - destruct (is_space c) eqn:Hc; [reflexivity|].
    cbn [ends_with_space]. exact Hc.
  - cbn [ends_with_space] in IH |- *. exact IH.
Qed.

Lemma rstrip_twice (s : string) : rstrip (rstrip s) = rstrip s.
Proof.
  induction s as [|c s IH]; cbn [rstrip]; [reflexivity|].
  destruct (rstrip s) as [|d t] eqn:E.
  - destruct (is_space c) eqn:Hc; [reflexivity|].
    cbn [rstrip]. rewrite Hc. reflexivity.
  - cbn [rstrip]. cbn [rstrip] in IH. rewrite IH. reflexivity.
Qed.

Lemma strip_head (s : string) : starts_with_space (strip s) = false.
Proof.
  unfold strip. pose proof (lstrip_head s) as Hl.
  destruct (lstrip s) as [|c t]; [reflexivity|].
  cbn [starts_with_space] in Hl. rewrite (rstrip_cons c t Hl). exact Hl.
Qed.

Lemma strip_twice (s : string) : strip (strip s) = strip s.
Proof.
  unfold strip. pose proof (lstrip_head s) as Hl.
  destruct (lstrip s) as [|c t]; [reflexivity|].
  cbn [starts_with_space] in Hl. rewrite (rstrip_cons c t Hl).
  cbn [lstrip]. rewrite Hl. rewrite (rstrip_cons c _ Hl).
  rewrite rstrip_twice. reflexivity.
Qed.

Lemma lstrip_blank (s : string) : blank s = true -> lstrip s = EmptyString.
Proof.
  induction s as [|c s IH]; cbn [blank lstrip]; [reflexivity|].
  intros H. apply andb_true_iff in H. destruct H as [Hc Hs].
  rewrite Hc. exact (IH Hs).
Qed.

(** X20.  What [summarize_with_llamacpp] answers is trimmed, whatever the
    model does: it neither begins nor ends with a whitespace character, and
    stripping it again changes nothing.  So is every summary
    [generate_summary] sends. *)
Theorem summary_is_trimmed
  (llm : string -> result string) (content : string) :
  starts_with_space (main.summarize_with_llamacpp llm content) = false
  /\ ends_with_space (main.summarize_with_llamacpp llm content) = false
  /\ strip (main.summarize_with_llamacpp llm content)
     = main.summarize_with_llamacpp llm content
  /\ (forall out,
        main.generate_summary llm (mkSummaryRequest content) = Ok out ->
        strip (main.SummaryOut_summary out) = main.SummaryOut_summary out).
Proof.
  assert (Hstrip : strip (main.summarize_with_llamacpp llm content)
                   = main.summarize_with_llamacpp llm content).
  { unfold main.summarize_with_llamacpp.
    destruct (main.generate llm _); [apply strip_twice|reflexivity]. }
  split; [|split; [|split]].
  - unfold main.summarize_with_llamacpp.
    destruct (main.generate llm _); [apply strip_head|reflexivity].
  - unfold main.summarize_with_llamacpp.
    destruct (main.generate llm _); [apply rstrip_tail|reflexivity].
  - exact Hstrip.
  - intros out. unfold main.generate_summary.
    cbn [SummaryRequest_book_content].
    destruct (String.eqb (main.summarize_with_llamacpp llm content)
                         "Summary generation failed."); [discriminate|].
    intros H. injection H as <-. cbn [main.SummaryOut_summary]. exact Hstrip.
Qed.

(** X21.  A model that answers nothing but whitespace gets through: the
    summary is the empty string, which is not the sentinel, and
    [generate_summary] answers it as a success. *)
Theorem generate_summary_blank_answer
  (llm : string -> result string) (content : string) (text : string) :
  main.generate llm (summary_prompt content) = Ok text ->
  blank text = true ->
  main.summarize_with_llamacpp llm content = EmptyString
  /\ main.generate_summary llm (mkSummaryRequest content)
     = Ok (main.mkSummaryOut EmptyString).
Proof.
  intros Hgen Hblank.
  assert (Hs : main.summarize_with_llamacpp llm content = EmptyString).
  { unfold main.summarize_with_llamacpp. fold (summary_prompt content).
    rewrite Hgen. unfold strip. rewrite (lstrip_blank _ Hblank). reflexivity. }
  split; [exact Hs|].
  unfold main.generate_summary. cbn [SummaryRequest_book_content].
  rewrite Hs. reflexivity.
Qed.

Lemma generate_summary_blank_answer_witness :
  main.generate Sample.blank_model (summary_prompt "Chapter one.")
  = Ok ("  " ++ newline)%string
  /\ blank ("  " ++ newline)%string = true
  /\ main.summarize_with_llamacpp Sample.blank_model "Chapter one." = EmptyString
  /\ main.generate_summary Sample.blank_model (mkSummaryRequest "Chapter one.")
     = Ok (main.mkSummaryOut EmptyString).
Proof.
  split; [reflexivity|]. split; [reflexivity|].
  exact (generate_summary_blank_answer
           Sample.blank_model "Chapter one." ("  " ++ newline)%string
           eq_refl eq_refl).
Defined.

(** ** The handlers on the stores the service reaches *)

Lemma reachable_store_ok_witness :
  reachable Sample.hash Sample.terse false
    (serve Sample.hash Sample.terse false (CreateBook Sample.solaris)
       (serve Sample.hash Sample.terse false (Register Sample.bob) empty_store))
  /\ books_primary_key
       (serve Sample.hash Sample.terse false (CreateBook Sample.solaris)
          (serve Sample.hash Sample.terse false (Register Sample.bob)
             empty_store))
  /\ usernames_unique
       (serve Sample.hash Sample.terse false (CreateBook Sample.solaris)
          (serve Sample.hash Sample.terse false (Register Sample.bob)
             empty_store)).
Proof.
  assert (H : reachable Sample.hash Sample.terse false
                (serve Sample.hash Sample.terse false (CreateBook Sample.solaris)
                   (serve Sample.hash Sample.terse false (Register Sample.bob)
                      empty_store))).
  { apply reachable_serve, reachable_serve, reachable_empty. }
  split; [exact H|].
  exact (reachable_store_ok Sample.hash Sample.terse false _ H).
Defined.

(** X23.  On a store the service has reached, no query meets two rows where
    one is expected: [delete_book] answers 204 for a stored key and 404 for
    any other, and [get_current_user] ends in a user, in the 401, or in an
    exception the password library itself raised on a stored hash, never in
    one of the query. *)
Theorem reachable_store_single_rows
  (hash_password : string -> result string) (llm : string -> result string)
  (foreign_keys : bool) (db : Store) :
  reachable hash_password llm foreign_keys db ->
  (forall book_id,
     (has_book db book_id ->
      exists db',
        main.delete_book foreign_keys book_id db
        = (Ok (main.mkResponse 204), db'))
     /\ (~ has_book db book_id ->
         main.delete_book foreign_keys book_id db
         = (Raise (HTTPException 404 "Book not found"), db)))
  /\ (forall verify_password credentials,
        (exists u,
           auth_gate.get_current_user verify_password credentials db
           = auth_gate.Returns u)
        \/ auth_gate.get_current_user verify_password credentials db
           = unauthorized
        \/ (exists u e,
              In u (users db)
              /\ verify_password (auth_gate.credentials_password credentials)
                                 (User_hashed_password u) = Raise e
              /\ auth_gate.get_current_user verify_password credentials db
                 = auth_gate.Raises e)).
Proof.
  intros Hreach.
  assert (Hok : store_ok db).
  { induction Hreach as [|q db Hreach IH].
    - constructor; constructor.
    - apply serve_store_ok. exact IH. }
  destruct Hok as [Hpk Hun]. split.
  - intros book_id. split.
    + intros Hb. eexists. exact (delete_book_run foreign_keys db book_id Hpk Hb).
    + intros Hno. unfold main.delete_book, bind.
      rewrite (get_book_none _ _ Hno). reflexivity.
  - intros verify_password credentials.
    destruct (has_username_dec db (auth_gate.credentials_username credentials))
      as [(u & Hin & Hname)|Hno].
    + assert (E : select_users_by_username
                    (auth_gate.credentials_username credentials) db = [u]).
      { unfold select_users_by_username. rewrite <- Hname.
        exact (filter_by_username_unique _ _ Hun Hin). }
      rewrite (get_current_user_one_row verify_password credentials db u E).
      destruct (verify_password (auth_gate.credentials_password credentials)
                                (User_hashed_password u)) as [[|]|e] eqn:Hv;
        cbn [gate_answer].
      * left. eexists. reflexivity.
      * right. left. reflexivity.
      * right. right. exists u, e. repeat split; assumption.
    + right. left. unfold auth_gate.get_current_user.
      rewrite (select_users_by_username_none _ _ Hno). reflexivity.
Qed.

Lemma reachable_store_single_rows_witness :
  reachable Sample.hash Sample.terse false
    (serve Sample.hash Sample.terse false (CreateBook Sample.solaris) empty_store)
  /\ exists db',
       main.delete_book false 1
         (serve Sample.hash Sample.terse false (CreateBook Sample.solaris)
            empty_store)
       = (Ok (main.mkResponse 204), db').
Proof.
  assert (H : reachable Sample.hash Sample.terse false
                (serve Sample.hash Sample.terse false (CreateBook Sample.solaris)
                   empty_store)).
  { apply reachable_serve, reachable_empty. }
  split; [exact H|].
  apply (proj1 (reachable_store_single_rows Sample.hash Sample.terse false _ H) 1).
  exists (mkBook 1 "Solaris" "Lem" "SF" 1961 (Some " A planet of sand. ")).
  split; [left|]; reflexivity.
Defined.
